(** * Chari API stub (src/server.js): a shallow embedding of the fixture
    store, the transaction generator, the transaction-to-operation view,
    the paginated list handlers and the customer/balance/transfer handlers.

    Modelling conventions.
    - A JS object used as a map ([mockData.customers], [mockData.balances],
      ...) is a [gmap string _].
    - The amounts and balances of the generated transactions are rationals
      [Q]: the double arithmetic of the generator is taken exactly. Integers
      produced by [parseInt] are [Z].
    - The values the transfer and balance handlers handle (a JSON request
      field, an entry of [mockData.balances]) are JS values [jsval] with
      their conversions and the operators [<], [-] and [+]. A finite number
      is a decimal [m * 10 ^ e]: every double is one, and [+], [-] and the
      parsing of numeric strings are taken without rounding to the nearest
      double. Strings are sequences of code units below 256.
    - A read [o[k]] of [typeMap] or [mockData.balances], and the read of
      [mockData.customers] in the transfer handler, fall back to the
      property [o] inherits from [Object.prototype] when [o] has no own
      property [k]. The other handlers read the maps' own entries, which is
      what the source reads for every key outside [object_prototype_keys].
    - [Math.random()] is an explicit source: the values it returns, each a
      rational in [0,1).
    - A query or body field is an [option]; [None] is an absent field. *)

From Stdlib Require Import ZArith QArith Qround Qabs String Ascii Lia Lqa.
From stdpp Require Import base list gmap strings pretty.

Open Scope Z_scope.

(* ================================================================== *)
(** ** JS values *)

(** A run of [k] zero digits. *)
Fixpoint zeros (k : nat) : string :=
  match k with O => "" | S k' => String "0" (zeros k') end.

(** A finite JS number, the decimal [dec_mant * 10 ^ dec_exp]. *)
Record jsdec := mkJsDec { dec_mant : Z; dec_exp : Z }.



(** A JS number: finite, an infinity ([JInf true] is [-Infinity]) or [NaN]. *)
Inductive jsnum := JFin (d : jsdec) | JInf (neg : bool) | JNaN.

Definition num_of_Z (z : Z) : jsnum := JFin (mkJsDec z 0).





(** ToBoolean of a number: [false] for zero and [NaN]. *)
Definition num_truthy (x : jsnum) : bool :=
  match x with JFin d => negb (Z.eqb (dec_mant d) 0) | JInf _ => true | JNaN => false end.













(** A JS value: a JSON value ([JNum] to [JObj], an object as the list of
    its own properties), or one of the functions an object inherits from
    [Object.prototype] ([JFun], by its name). *)
#[warnings="-register-all"]
Inductive jsval :=
| JNum (n : jsnum)
| JStr (s : string)
| JBool (b : bool)
| JNull
| JArr (elems : list jsval)
| JObj (fields : list (string * jsval))
| JFun (name : string).

(** Primitive values. *)
Inductive jsprim := PNum (n : jsnum) | PStr (s : string) | PBool (b : bool) | PNull.

Definition prim_val (p : jsprim) : jsval :=
  match p with PNum n => JNum n | PStr s => JStr s | PBool b => JBool b | PNull => JNull end.






(** ToBoolean. *)
Definition js_truthy (v : jsval) : bool :=
  match v with
  | JNum n => num_truthy n
  | JStr s => negb (String.eqb s "")
  | JBool b => b
  | JNull => false
  | JArr _ | JObj _ | JFun _ => true
  end.

(** [x || d] for [x] possibly [undefined] ([None]). *)
Definition js_or (x : option jsval) (d : jsval) : jsval :=
  match x with Some v => if js_truthy v then v else d | None => d end.






(** The properties of [Object.prototype], inherited by every object
    literal. *)
Definition object_prototype_keys : list string :=
  ["constructor"; "__defineGetter__"; "__defineSetter__"; "hasOwnProperty";
   "__lookupGetter__"; "__lookupSetter__"; "isPrototypeOf";
   "propertyIsEnumerable"; "toString"; "valueOf"; "__proto__"; "toLocaleString"].

(** [o[k]] on an object literal without an own property [k]: [__proto__]
    gives [Object.prototype], an object with no own property; [constructor]
    the function [Object]; the other keys the function of that name; any
    other key [undefined] ([None]). *)
Definition proto_get (k : string) : option jsval :=
  if String.eqb k "__proto__" then Some (JObj [])
  else if String.eqb k "constructor" then Some (JFun "Object")
  else if existsb (String.eqb k) object_prototype_keys then Some (JFun k)
  else None.

Definition js_int (z : Z) : jsprim := PNum (num_of_Z z).


(* ================================================================== *)
(** ** Data model *)

(** A stored transaction, as pushed by [generateFakeTransactions]. *)
Record transaction := mkTransaction {
  id : string;
  type : string;
  amount : Q;
  currency : string;
  date : string;
  description : string;
  status : string;
  balanceAfter : Q
}.

(** [{ status, message }] entries of [mockData.customers]. *)
Record customer := mkCustomer {
  cust_status : Z;
  cust_message : string
}.

(** Entries of [mockData.registrations]. *)
Record registration := mkRegistration {
  firstName : string;
  lastName : string;
  cin : string;
  walletType : string;
  registeredAt : string
}.

(** [mockData]: five maps keyed by phone number. *)
Record mockData := mkMockData {
  customers : gmap string customer;
  registrations : gmap string registration;
  pins : gmap string string;
  balances : gmap string jsprim;
  transactions : gmap string (list transaction)
}.

(** HTTP outcome of a handler: [res.json(createResponse(data))] or
    [res.status(code).json(createErrorResponse(code, description))]. *)
Inductive response (A : Type) :=
| RespOk (data : A)
| RespErr (errorCode : Z) (errorDescription : string).
Arguments RespOk {A} _.
Arguments RespErr {A} _ _.

(** JS truthiness of an optional string field ([!x] is its negation). *)
Definition truthy_str (x : option string) : bool :=
  match x with
  | Some s => negb (String.eqb s "")
  | None => false
  end.

(** [arr[k]] for an index computed as [Math.floor(Math.random() * arr.length)];
    the index is always in range since [Math.random()] is in [0,1). *)
Definition nth_idx (l : list string) (k : Z) : string :=
  match l !! Z.to_nat k with Some s => s | None => "" end.

(** [Math.floor(r * n)]. *)
Definition floor_mul (r : Q) (n : Z) : Z := Qfloor (r * inject_Z n).

(** [String(n).padStart(w, '0')]. *)
Definition padStart (w : nat) (s : string) : string :=
  zeros (w - String.length s) +:+ s.

(** [parseFloat(x.toFixed(2))]: round the magnitude to the nearest
    hundredth, ties to the larger one, and keep the sign. *)
Definition round_pos2 (x : Q) : Q := Qfloor (x * 100 + (1 # 2))%Q # 100.
Definition toFixed2 (x : Q) : Q :=
  if negb (Qle_bool 0 x) then (- round_pos2 (- x))%Q else round_pos2 x.

(* ================================================================== *)
(** ** Transaction generator ([generateFakeTransactions], lines 52-99) *)

Definition transactionTypes : list string :=
  ["CASHIN"; "CASHOUT"; "TRANSFER_IN"; "TRANSFER_OUT"; "BILL_PAYMENT"].

(** The [descriptions] object, looked up at a type of [transactionTypes]. *)
Definition descriptions (t : string) : list string :=
  if String.eqb t "CASHIN" then
    ["Mobile money deposit"; "Cash deposit at agent"; "Cash deposit at branch";
     "ATM deposit"; "Bank transfer in"]
  else if String.eqb t "CASHOUT" then
    ["ATM withdrawal"; "Cash withdrawal at agent"; "Cash withdrawal at branch";
     "Point of sale"]
  else if String.eqb t "TRANSFER_IN" then
    ["Transfer from +212611111111"; "Transfer from +212622222222";
     "Transfer from +212633333333"; "Salary payment"; "Family transfer"]
  else if String.eqb t "TRANSFER_OUT" then
    ["Transfer to +212644444444"; "Transfer to +212655555555";
     "Payment to merchant"; "Bill payment"; "Friend transfer"]
  else
    ["Electricity bill"; "Water bill"; "Internet bill"; "Mobile top-up";
     "Insurance payment"].

Definition statuses : list string :=
  ["COMPLETED"; "COMPLETED"; "COMPLETED"; "COMPLETED"; "PENDING"].

(** The six [Math.random()] results consumed by one loop iteration, in
    the order the source draws them. *)
Record draws := mkDraws {
  r_type : Q; r_amount : Q; r_hour : Q; r_minute : Q; r_desc : Q; r_status : Q
}.

Section Generator.
  (** [date.toISOString()] of "now" moved back [daysAgo] days, with the
      given hours and minutes: the clock is the environment's. *)
Variable isoDate : Z -> Z -> Z -> string.
  (** The [Math.random()] results of iteration [i]. *)
Variable rnd : nat -> draws.
Variable count : nat.

  (** Loop body for index [i]: [transactions.unshift(...)] and
      [currentBalance += amount]. *)
Definition gen_step (i : nat) (txs : list transaction) (currentBalance : Q)
      : list transaction * Q :=
    let d := rnd i in
    let ty := nth_idx transactionTypes (floor_mul (r_type d) 5) in
    let isCredit := String.eqb ty "CASHIN" || String.eqb ty "TRANSFER_IN" in
    let baseAmount := (r_amount d * 1000 + 50)%Q in
    let amt := if isCredit then baseAmount else (- baseAmount)%Q in
    let currentBalance' := (currentBalance + amt)%Q in
    let daysAgo := Z.of_nat count - Z.of_nat i in
    let dt := isoDate daysAgo (floor_mul (r_hour d) 24) (floor_mul (r_minute d) 60) in
    let descList := descriptions ty in
    let desc := nth_idx descList (floor_mul (r_desc d) (Z.of_nat (length descList))) in
    let st := nth_idx statuses (floor_mul (r_status d) 5) in
    (mkTransaction ("TXN_" +:+ padStart 3 (pretty (i + 1)%nat)) ty (toFixed2 amt)
        "MAD" dt desc st (toFixed2 currentBalance') :: txs,
     currentBalance').

  (** The first [n] iterations, from [transactions = []] and
      [currentBalance = 5000.00]. *)
Fixpoint gen_loop (n : nat) : list transaction * Q :=
    match n with
    | O => ([], 5000 # 1)
    | S i => let '(txs, bal) := gen_loop i in gen_step i txs bal
    end.

Definition generateFakeTransactions : list transaction := fst (gen_loop count).
End Generator.

(** Replaying a list oldest-first from [seed]: each transaction's
    [balanceAfter] must equal the running sum of the stored [amount]s. *)
Fixpoint replay_from (bal : Q) (oldest_first : list transaction) : bool :=
  match oldest_first with
  | [] => true
  | tx :: rest =>
      let bal' := (bal + amount tx)%Q in
      Qeq_bool bal' (balanceAfter tx) && replay_from bal' rest
  end.

(** The generator emits newest-first, so the replay runs over [rev]. *)
Definition balance_replay_ok (seed : Q) (txs : list transaction) : bool :=
  replay_from seed (rev txs).

(* ================================================================== *)
(** ** Transaction to operation (lines 166-258) *)

(** [getOperationType]: the [typeMap] object and [typeMap[t] || 0]. *)
Definition typeMap : gmap string Z :=
  <["CASHIN" := 1]> (<["CASHOUT" := 2]> (<["TRANSFER_IN" := 3]>
    (<["TRANSFER_OUT" := 3]> (<["BILL_PAYMENT" := 4]> ∅)))).

(** The value of [typeMap[t] || 0]: a number, or a property [typeMap]
    inherits from [Object.prototype], which is truthy. *)
Inductive opTypeValue := OpCode (n : Z) | OpInherited (v : jsval).

Definition getOperationType (transactionType : string) : opTypeValue :=
  match typeMap !! transactionType with
  | Some v => if Z.eqb v 0 then OpCode 0 else OpCode v
  | None =>
      match proto_get transactionType with
      | Some v => if js_truthy v then OpInherited v else OpCode 0
      | None => OpCode 0
      end
  end.

(** [getTransactionStatus]. *)
Definition getTransactionStatus (st : string) : Z :=
  if String.eqb st "COMPLETED" then 2 else 1.

(** [\d] of a regular expression without the [u] flag: [0-9]. *)
Definition is_digit (c : ascii) : bool :=
  (48 <=? nat_of_ascii c)%nat && (nat_of_ascii c <=? 57)%nat.

(** [\d{n}] at the start of [s]: the [n] digits read. *)
Fixpoint digits_n (n : nat) (s : string) : option string :=
  match n with
  | O => Some ""
  | S k =>
      match s with
      | String c t => if is_digit c then option_map (String c) (digits_n k t) else None
      | EmptyString => None
      end
  end.

(** [/\+212\d{9}/] anchored at the start of [s]: the matched text. *)
Definition match_at (s : string) : option string :=
  match s with
  | String a (String b (String c (String d t))) =>
      if Ascii.eqb a "+" && Ascii.eqb b "2" && Ascii.eqb c "1" && Ascii.eqb d "2"
      then option_map (String.append "+212") (digits_n 9 t)
      else None
  | _ => None
  end.

(** [s.match(/\+212\d{9}/)], read as [phoneMatch ? phoneMatch[0] : null]:
    the leftmost match. *)
Fixpoint find_phone (s : string) : option string :=
  match match_at s with
  | Some m => Some m
  | None => match s with EmptyString => None | String _ t => find_phone t end
  end.

(** The result [{ sender, receiver, beneficiary }] of [extractPhoneNumbers];
    [null] is [None]. *)
Record parties := mkParties {
  sender : option string;
  receiver : option string;
  beneficiary : option string
}.

(** [extractPhoneNumbers(tx, customerPhone)]. *)
Definition extractPhoneNumbers (tx : transaction) (customerPhone : string) : parties :=
  if String.eqb (type tx) "TRANSFER_OUT" then
    mkParties (Some customerPhone) (find_phone (description tx)) (Some (description tx))
  else if String.eqb (type tx) "TRANSFER_IN" then
    mkParties (find_phone (description tx)) (Some customerPhone) (Some (description tx))
  else if String.eqb (type tx) "CASHIN" then
    mkParties (Some customerPhone) (Some customerPhone) None
  else if String.eqb (type tx) "CASHOUT" then
    mkParties (Some customerPhone) (Some customerPhone) None
  else
    mkParties (Some customerPhone) None None.

(** [parseInt] on a string of decimal digits: the value of the longest
    digit prefix, [None] (NaN) when there is none. *)
Fixpoint digit_prefix_value (acc : option Z) (s : string) : option Z :=
  match s with
  | String c t =>
      if is_digit c
      then digit_prefix_value
             (Some (10 * default 0 acc + (Z.of_nat (nat_of_ascii c) - 48))) t
      else acc
  | EmptyString => acc
  end.

(** [tx.id.replace('TXN_', '')]: the first occurrence removed. *)
Fixpoint replace_first (pat s : string) : string :=
  if String.prefix pat s then substring (String.length pat) (String.length s) s
  else match s with
       | EmptyString => EmptyString
       | String c t => String c (replace_first pat t)
       end.

(** The operation object built by [transactionToOperation]; the field
    [transactionReference] (a rendering of [tx.date] in local time) is
    not modelled. *)
Record operation := mkOperation {
  operationId : Z;
  transactionId : option Z;
  op_amount : Q;
  reason : option string;
  operationType : opTypeValue;
  transactionDate : string;
  sens : Z;
  transactionStatus : Z;
  feesAmount : Q;
  totalAmount : Q;
  op_sender : option string;
  op_receiver : option string;
  op_beneficiary : option string;
  accountNumber : string;
  beneficiaryName : string;
  op_currency : string;
  op_balanceAfter : Q
}.

(** [transactionToOperation(tx, phoneNumber, operationId)]. *)
Definition transactionToOperation (tx : transaction) (phoneNumber : string)
    (opId : Z) : operation :=
  let opType := getOperationType (type tx) in
  let amt := Qabs (amount tx) in
  let ps := extractPhoneNumbers tx phoneNumber in
  {| operationId := opId;
     transactionId := digit_prefix_value None (replace_first "TXN_" (id tx));
     op_amount := amt;
     reason := if String.eqb (description tx) "" then None else Some (description tx);
     operationType := opType;
     transactionDate := date tx;
     sens := if Qle_bool (amount tx) 0 then 2 else 1;
     transactionStatus := getTransactionStatus (status tx);
     feesAmount := 0;
     totalAmount := amt;
     op_sender := sender ps;
     op_receiver := receiver ps;
     op_beneficiary := beneficiary ps;
     accountNumber := phoneNumber;
     beneficiaryName := match beneficiary ps with
                        | Some b => if String.eqb b "" then "" else b
                        | None => "" end;
     op_currency := if String.eqb (currency tx) "" then "MAD" else currency tx;
     op_balanceAfter := balanceAfter tx |}.

(** The spec's reading of a phone-number-shaped substring: a [+] followed
    by a run of one or more digits, taken whole; the first one. *)
Fixpoint take_digits (s : string) : string :=
  match s with
  | String c t => if is_digit c then String c (take_digits t) else EmptyString
  | EmptyString => EmptyString
  end.

Fixpoint spec_first_phone (s : string) : option string :=
  match s with
  | EmptyString => None
  | String c t =>
      if Ascii.eqb c "+" && negb (String.eqb (take_digits t) "")
      then Some (String c (take_digits t))
      else spec_first_phone t
  end.

(* ================================================================== *)
(** ** Pagination: [Array.prototype.slice] and the page arithmetic *)

(** The relative index of [slice]: a negative index counts from the end. *)
Definition rel_index (len k : Z) : Z :=
  if k <? 0 then Z.max (len + k) 0 else Z.min k len.

(** [l.slice(start, end)]. *)
Definition js_slice {A} (l : list A) (start end_ : Z) : list A :=
  let len := Z.of_nat (length l) in
  let from := rel_index len start in
  let to := rel_index len end_ in
  take (Z.to_nat (to - from)) (drop (Z.to_nat from) l).

(** [Math.floor(a / b)] and [Math.ceil(a / b)]; [None] for the
    non-finite results (Infinity, NaN) of a division by zero. *)
Definition js_floor_div (a b : Z) : option Z :=
  if Z.eqb b 0 then None else Some (a / b).
Definition js_ceil_div (a b : Z) : option Z :=
  if Z.eqb b 0 then None else Some (- ((- a) / b)).

(* ================================================================== *)
(** ** GET /customers/transactions (lines 510-544) *)

(** The response object of the handler. *)
Record txPage := mkTxPage {
  tp_transactions : list transaction;
  tp_total : Z;
  tp_limit : Z;
  tp_offset : Z;
  tp_page : option Z;
  tp_totalPages : option Z;
  tp_hasMore : bool;
  tp_hasPrevious : bool
}.

(** Query parameters: [limit] and [page] are the [parseInt] of their
    strings ([None] when absent: the defaults 10 and 1 apply); [offset] is
    [Some o] when the query holds a non-empty (so truthy) [offset] string
    whose [parseInt] is [o], and [None] when it is absent or empty (the
    default [0] is falsy). *)
Definition get_customer_transactions (st : mockData) (phoneNumber : option string)
    (limit offset page : option Z) : response txPage :=
  if negb (truthy_str phoneNumber) then RespErr 400 "Phone number is required"
  else
    let txs := default [] (transactions st !! default "" phoneNumber) in
    let pageSize := default 10 limit in
    let pageNumber := default 1 page in
    let startIndex := match offset with
                      | Some o => o
                      | None => (pageNumber - 1) * pageSize
                      end in
    let endIndex := startIndex + pageSize in
    let len := Z.of_nat (length txs) in
    RespOk {| tp_transactions := js_slice txs startIndex endIndex;
              tp_total := len;
              tp_limit := pageSize;
              tp_offset := startIndex;
              tp_page := option_map (fun q => q + 1) (js_floor_div startIndex pageSize);
              tp_totalPages := js_ceil_div len pageSize;
              tp_hasMore := endIndex <? len;
              tp_hasPrevious := 0 <? startIndex |}.

(* ================================================================== *)
(** ** GET /operations (lines 733-784) *)

Record opsPage := mkOpsPage {
  collection : list operation;
  op_count : Z;
  op_total : Z;
  op_pageNumber : Z;
  op_pageSize : Z;
  op_totalPages : option Z;
  op_hasMore : bool;
  op_hasPrevious : bool
}.

Section Operations.
  (** [String.prototype.toUpperCase], left abstract. *)
Variable toUpperCase : string -> string.

  (** The [operationType] filter: [opTypes.includes(t.type.toString())]. *)
Definition type_filter (opTypes : list string) (t : transaction) : bool :=
    existsb (String.eqb (type t)) opTypes.

  (** The [transactionStatus] filter, compared in upper case. *)
Definition status_filter (statusStr : string) (t : transaction) : bool :=
    String.eqb (toUpperCase (status t)) (toUpperCase statusStr).

  (** Query parameters: [operationType] is [Some opTypes] when truthy (a
      non-empty string [s] gives [[s]], a repeated parameter its array);
      [transactionStatus] is the string; [pageSize] and [pageNumber] are the
      [parseInt] of their strings, [None] when absent (defaults 10 and 1). *)
Definition filtered_transactions (st : mockData) (phone : string)
      (operationType : option (list string)) (transactionStatus : option string)
      : list transaction :=
    let txs := default [] (transactions st !! phone) in
    let txs := match operationType with
               | Some opTypes => List.filter (type_filter opTypes) txs
               | None => txs
               end in
    if truthy_str transactionStatus
    then List.filter (status_filter (default "" transactionStatus)) txs
    else txs.

Definition get_operations (st : mockData) (phoneNumber : option string)
      (operationType : option (list string)) (transactionStatus : option string)
      (pageSize pageNumber : option Z) : response opsPage :=
    if negb (truthy_str phoneNumber) then RespErr 400 "Phone number is required"
    else
      let phone := default "" phoneNumber in
      let txs := filtered_transactions st phone operationType transactionStatus in
      let pageSizeInt := default 10 pageSize in
      let pageNumberInt := default 1 pageNumber in
      let totalRecords := Z.of_nat (length txs) in
      let startIndex := (pageNumberInt - 1) * pageSizeInt in
      let endIndex := startIndex + pageSizeInt in
      let ops := imap (fun index tx =>
                   transactionToOperation tx phone (startIndex + Z.of_nat index + 1))
                   (js_slice txs startIndex endIndex) in
      RespOk {| collection := ops;
                op_count := Z.of_nat (length ops);
                op_total := totalRecords;
                op_pageNumber := pageNumberInt;
                op_pageSize := pageSizeInt;
                op_totalPages := js_ceil_div totalRecords pageSizeInt;
                op_hasMore := endIndex <? totalRecords;
                op_hasPrevious := 1 <? pageNumberInt |}.

  (** The two filters of the handler as one predicate on a record. *)
Definition matches_filters (operationType : option (list string))
      (transactionStatus : option string) (t : transaction) : bool :=
    match operationType with Some opTypes => type_filter opTypes t | None => true end
    && (if truthy_str transactionStatus
        then status_filter (default "" transactionStatus) t else true).
End Operations.

(* ================================================================== *)
(** ** Store updates and the customer, balance and transfer handlers *)

Definition set_customers (st : mockData) (m : gmap string customer) : mockData :=
  mkMockData m (registrations st) (pins st) (balances st) (transactions st).
Definition set_registrations (st : mockData) (m : gmap string registration) : mockData :=
  mkMockData (customers st) m (pins st) (balances st) (transactions st).
Definition set_pins (st : mockData) (m : gmap string string) : mockData :=
  mkMockData (customers st) (registrations st) m (balances st) (transactions st).

(** POST /customers/register (lines 333-356); [now] is
    [new Date().toISOString()]. *)
Definition post_register (now : string) (st : mockData)
    (phoneNumber firstName lastName cin walletType : option string)
    : response bool * mockData :=
  if negb (truthy_str phoneNumber && truthy_str firstName && truthy_str lastName
           && truthy_str cin && truthy_str walletType)
  then (RespErr 400 "Missing required fields", st)
  else
    let p := default "" phoneNumber in
    let st1 := set_registrations st
                 (<[p := mkRegistration (default "" firstName) (default "" lastName)
                          (default "" cin) (default "" walletType) now]>
                    (registrations st)) in
    let st2 := set_customers st1
                 (<[p := mkCustomer 1 "Customer not confirmed"]> (customers st1)) in
    (RespOk true, st2).

(** POST /customers/confirm (lines 359-378). *)
Definition post_confirm (st : mockData) (phoneNumber code walletType : option string)
    : response bool * mockData :=
  if negb (truthy_str phoneNumber && truthy_str code && truthy_str walletType)
  then (RespErr 400 "Missing required fields", st)
  else if negb (String.eqb (default "" code) "123456")
  then (RespErr 400 "Invalid confirmation code", st)
  else
    let p := default "" phoneNumber in
    (RespOk true,
     set_customers st (<[p := mkCustomer 2 "Customer confirmed but no PIN"]> (customers st))).

(** POST /customers/pin (lines 424-439). *)
Definition post_pin (st : mockData) (phoneNumber pin : option string)
    : response bool * mockData :=
  if negb (truthy_str phoneNumber && truthy_str pin)
  then (RespErr 400 "Phone number and PIN are required", st)
  else
    let p := default "" phoneNumber in
    let st1 := set_pins st (<[p := default "" pin]> (pins st)) in
    (RespOk true,
     set_customers st1 (<[p := mkCustomer 3 "Active customer"]> (customers st1))).

(** [mockData.balances[k]]: the own entry, else the inherited property. *)
Definition balance_get (m : gmap string jsprim) (k : string) : option jsval :=
  match m !! k with
  | Some p => Some (prim_val p)
  | None => proto_get k
  end.







(* ================================================================== *)
(** ** Lifecycle operations as one step function *)

(** A register, confirm or create-PIN request, with its body fields. *)
Inductive lifecycle_op :=
| Register (phoneNumber firstName lastName cin walletType : option string)
| Confirm (phoneNumber code walletType : option string)
| CreatePin (phoneNumber pin : option string).

Definition apply_op (now : string) (op : lifecycle_op) (st : mockData) : mockData :=
  match op with
  | Register p f l c w => snd (post_register now st p f l c w)
  | Confirm p c w => snd (post_confirm st p c w)
  | CreatePin p n => snd (post_pin st p n)
  end.

Definition apply_ops (now : string) (ops : list lifecycle_op) (st : mockData) : mockData :=
  fold_left (fun s op => apply_op now op s) ops st.

(** Whether the handler accepts the request (passes its validations). *)
Definition op_accepted (op : lifecycle_op) : bool :=
  match op with
  | Register p f l c w =>
      truthy_str p && truthy_str f && truthy_str l && truthy_str c && truthy_str w
  | Confirm p c w =>
      truthy_str p && truthy_str c && truthy_str w && String.eqb (default "" c) "123456"
  | CreatePin p n => truthy_str p && truthy_str n
  end.

Definition op_phone (op : lifecycle_op) : string :=
  match op with
  | Register p _ _ _ _ | Confirm p _ _ | CreatePin p _ => default "" p
  end.

(** The status an accepted request writes: register 1, confirm 2, PIN 3. *)
Definition op_level (op : lifecycle_op) : Z :=
  match op with Register _ _ _ _ _ => 1 | Confirm _ _ _ => 2 | CreatePin _ _ => 3 end.

Definition op_message (op : lifecycle_op) : string :=
  match op with
  | Register _ _ _ _ _ => "Customer not confirmed"
  | Confirm _ _ _ => "Customer confirmed but no PIN"
  | CreatePin _ _ => "Active customer"
  end.

(** The claimed monotonicity: no sequence of these requests lowers the
    status of a customer that exists. *)
Definition status_never_decreases : Prop :=
  forall now ops st p c c',
    customers st !! p = Some c ->
    customers (apply_ops now ops st) !! p = Some c' ->
    cust_status c <= cust_status c'.

(** The fixture customers of [mockData.customers] (lines 103-112). *)
Definition seed_customers : gmap string customer :=
  <["+212600000001" := mkCustomer 0 "Customer not found"]>
  (<["+212600000002" := mkCustomer 1 "Customer not confirmed"]>
  (<["+212600000003" := mkCustomer 2 "Customer confirmed but no PIN"]>
  (<["+212600000004" := mkCustomer 3 "Active customer"]>
  (<["+212600000005" := mkCustomer 4 "Temporarily locked"]>
  (<["+212600000006" := mkCustomer 5 "Permanently locked"]> ∅))))).

(** The fixture balances of [mockData.balances] (lines 139-143). *)
Definition seed_balances : gmap string jsprim :=
  <["+212600000004" := PNum (JFin (mkJsDec 324775 (-2)))]>
  (<["+212600000003" := js_int 150]> (<["+212600000002" := js_int 0]> ∅)).

(** The fixture registrations (lines 113-135) and PINs (lines 136-138). *)
Definition seed_registrations : gmap string registration :=
  <["+212600000002" := mkRegistration "Ahmed" "Ben Ali" "AB123456" "P" "2024-01-15T10:30:00Z"]>
  (<["+212600000003" := mkRegistration "Fatima" "Zahra" "CD789012" "P" "2024-01-20T14:15:00Z"]>
  (<["+212600000004" := mkRegistration "Mohammed" "Alami" "EF345678" "P" "2024-01-10T09:45:00Z"]> ∅)).

Definition seed_pins : gmap string string := {[ "+212600000004" := "1234" ]}.

(** The fixture store (lines 101-149), with the generated transaction lists
    of lines 144-148 left empty. *)
Definition seed_store : mockData :=
  mkMockData seed_customers seed_registrations seed_pins seed_balances ∅.

(** A run of the generator whose two draws of [Math.random()] for the
    amount give [50.004] each, crediting CASHIN both times. *)
Definition rnd_c1 (i : nat) : draws := mkDraws 0 (4 # 1000000) 0 0 0 0.

(** A 25-record history from the generator, stored for +212600000004. *)
Definition sample_txs : list transaction :=
  generateFakeTransactions (fun _ _ _ => "") rnd_c1 25.

Definition sample_store : mockData :=
  mkMockData seed_customers seed_registrations seed_pins seed_balances
    {[ "+212600000004" := sample_txs ]}.

(** The claimed numbering of GET /operations: every returned operation's
    [operationId] is its 1-based position in the filtered list. *)
Definition opIds_are_positions : Prop :=
  forall (toUpperCase : string -> string) st ph ot ts ps pn r,
    get_operations toUpperCase st (Some ph) ot ts ps pn = RespOk r ->
    forall i op, collection r !! i = Some op ->
      1 <= operationId op /\
      exists tx,
        filtered_transactions toUpperCase st ph ot ts !! Z.to_nat (operationId op - 1)
          = Some tx /\
        op = transactionToOperation tx ph (operationId op).

(** A placeholder page, for projecting a response. *)
Definition empty_ops_page : opsPage := mkOpsPage [] 0 0 0 0 None false false.
Definition empty_tx_page : txPage := mkTxPage [] 0 0 0 None None false false.

(** The payload of a successful response, [d] otherwise. *)
Definition ok_or {A} (d : A) (r : response A) : A :=
  match r with RespOk a => a | RespErr _ _ => d end.

(** The start index of GET /customers/transactions: the offset when one is
    given, [(pageNumber - 1) * pageSize] otherwise. *)
Definition tx_startIndex (limit offset page : option Z) : Z :=
  match offset with Some o => o | None => (default 1 page - 1) * default 10 limit end.

Definition dummy_operation : operation :=
  transactionToOperation (mkTransaction "" "" 0 "" "" "" "" 0) "" 0.

(** Every character of [s] is a digit. *)
Fixpoint all_digits (s : string) : bool :=
  match s with
  | EmptyString => true
  | String c t => is_digit c && all_digits t
  end.

(** The text [/\+212\d{9}/] matches in full: "+212" and nine digits. *)
Definition phone_shaped (m : string) : Prop :=
  exists ds, m = "+212" +:+ ds /\ String.length ds = 9%nat /\ all_digits ds = true.

(** A TRANSFER_OUT record whose description names a French number. *)
Definition tx_foreign : transaction :=
  mkTransaction "TXN_001" "TRANSFER_OUT" (-(100 # 1)) "MAD" ""
    "Transfer to +33612345678" "COMPLETED" (4900 # 1).

(* ================================================================== *)
(** ** Further handlers of src/server.js *)

(** [.replace(/\D/g, '')]: every character other than [0-9] removed. *)
Fixpoint remove_non_digits (s : string) : string :=
  match s with
  | EmptyString => EmptyString
  | String c t => if is_digit c then String c (remove_non_digits t) else remove_non_digits t
  end.

(** [s.slice(-4)] of a string: from index [max(length - 4, 0)] to the end. *)
Definition slice_last4 (s : string) : string :=
  let start := (String.length s - 4)%nat in
  substring start (String.length s - start) s.

(** [mockData.balances[p] || 0]. *)
Definition balance_or_zero (st : mockData) (p : string) : jsval :=
  js_or (balance_get (balances st) p) (prim_val (js_int 0)).

(** The [customerInfo] payload of GET /customers/status. *)
Record statusInfo := mkStatusInfo {
  si_id : string;
  si_phoneNumber : string;
  si_status : Z;
  si_walletType : string;
  si_balance : jsval;
  si_currency : string;
  si_firstName : option string;
  si_lastName : option string;
  si_registeredAt : option string
}.

(** GET /customers/status (lines 272-308); [RespOk None] is the empty
    204 answer of [res.status(204).send()]. *)
Definition get_customer_status (st : mockData) (phoneNumber : option string)
    : response (option statusInfo) :=
  if negb (truthy_str phoneNumber) then RespErr 400 "Phone number is required"
  else
    let p := default "" phoneNumber in
    match customers st !! p with
    | None => RespOk None
    | Some customerStatus =>
      if Z.eqb (cust_status customerStatus) 0 then RespOk None
      else
        let reg := registrations st !! p in
        RespOk (Some {|
          si_id := "customer-" +:+ remove_non_digits (replace_first "+" p);
          si_phoneNumber := p;
          si_status := cust_status customerStatus;
          si_walletType := match reg with
                           | Some r => if String.eqb (walletType r) "" then "P" else walletType r
                           | None => "P"
                           end;
          si_balance := balance_or_zero st p;
          si_currency := "MAD";
          si_firstName := option_map firstName reg;
          si_lastName := option_map lastName reg;
          si_registeredAt := option_map registeredAt reg |})
    end.

(** GET /customers/default (lines 311-330): the [isDefaultWallet] flag. *)
Definition get_customer_default (st : mockData) (phoneNumber : option string)
    : response bool :=
  if negb (truthy_str phoneNumber) then RespErr 400 "Phone number is required"
  else
    match customers st !! default "" phoneNumber with
    | None => RespErr 404 "Customer not found"
    | Some customerStatus =>
      if Z.eqb (cust_status customerStatus) 0 then RespErr 404 "Customer not found"
      else RespOk true
    end.

(** The [response] payload of POST /customers/login. *)
Record loginResponse := mkLoginResponse {
  logged : bool;
  remainingAttempts : Z
}.

(** POST /customers/login (lines 396-421); the body fields are strings. *)
Definition post_login (st : mockData) (phoneNumber pin : option string)
    : response loginResponse :=
  if negb (truthy_str phoneNumber && truthy_str pin)
  then RespErr 400 "Phone number and PIN are required"
  else
    match customers st !! default "" phoneNumber with
    | None => RespErr 400 "Customer not found or not activated"
    | Some customerStatus =>
      if cust_status customerStatus <? 3
      then RespErr 400 "Customer not found or not activated"
      else
        let isCorrectPin := String.eqb (default "" pin) "1234" in
        RespOk (mkLoginResponse isCorrectPin (if isCorrectPin then 3 else 2))
    end.

(** PUT /customers/pin (lines 442-456). *)
Definition put_pin (st : mockData) (phoneNumber oldPin newPin : option string)
    : response bool * mockData :=
  if negb (truthy_str phoneNumber && truthy_str oldPin && truthy_str newPin)
  then (RespErr 400 "Phone number, old PIN, and new PIN are required", st)
  else (RespOk true, set_pins st (<[default "" phoneNumber := default "" newPin]> (pins st))).

(** The [customerInfo] payload of GET /customers/info. *)
Record customerInfo := mkCustomerInfo {
  ci_id : string;
  ci_phoneNumber : string;
  ci_firstName : string;
  ci_lastName : string;
  ci_cin : string;
  ci_walletType : string;
  ci_status : Z;
  ci_customer_status : Z;
  ci_rib : string;
  ci_balance : jsval;
  ci_createdAt : string;
  ci_updatedAt : string
}.

(** [mockData.customers[p]?.status || 0]. *)
Definition status_or_zero (st : mockData) (p : string) : Z :=
  match customers st !! p with
  | Some c => if Z.eqb (cust_status c) 0 then 0 else cust_status c
  | None => 0
  end.

(** GET /customers/info (lines 476-507); [now] is [new Date().toISOString()]. *)
Definition get_customer_info (now : string) (st : mockData) (phoneNumber : option string)
    : response customerInfo :=
  if negb (truthy_str phoneNumber) then RespErr 400 "Phone number is required"
  else
    let p := default "" phoneNumber in
    match registrations st !! p with
    | None => RespErr 404 "Customer not found"
    | Some registration =>
      RespOk {| ci_id := remove_non_digits (replace_first "+" p);
                ci_phoneNumber := p;
                ci_firstName := firstName registration;
                ci_lastName := lastName registration;
                ci_cin := cin registration;
                ci_walletType := walletType registration;
                ci_status := status_or_zero st p;
                ci_customer_status := status_or_zero st p;
                ci_rib := "827640000010000000" +:+ slice_last4 p;
                ci_balance := balance_or_zero st p;
                ci_createdAt := registeredAt registration;
                ci_updatedAt := now |}
    end.

(** GET /customers/transactions/:transactionId (lines 547-566); the path
    parameter is a string. *)
Definition get_transaction (st : mockData) (phoneNumber : option string)
    (transactionId : string) : response transaction :=
  if negb (truthy_str phoneNumber) then RespErr 400 "Phone number is required"
  else
    let txs := default [] (transactions st !! default "" phoneNumber) in
    match List.find (fun tx => String.eqb (id tx) ("TXN_" +:+ padStart 3 transactionId)) txs with
    | Some tx => RespOk tx
    | None => RespErr 404 "Transaction not found"
    end.

(** The response of GET /operations-simple (lines 592-601). *)
Record opsSimplePage := mkOpsSimplePage {
  os_operations : list transaction;
  os_total : Z;
  os_limit : Z;
  os_offset : Z;
  os_page : option Z;
  os_totalPages : option Z;
  os_hasMore : bool;
  os_hasPrevious : bool
}.

(** GET /operations-simple (lines 569-609): the records of the given
    [type] (a truthy query string), or all of them, paged from the query
    parameters read as in [get_customer_transactions]. *)
Definition get_operations_simple (st : mockData) (phoneNumber type_ : option string)
    (limit offset page : option Z) : response opsSimplePage :=
  if negb (truthy_str phoneNumber) then RespErr 400 "Phone number is required"
  else
    let txs := default [] (transactions st !! default "" phoneNumber) in
    let txs := if truthy_str type_
               then List.filter (fun t => String.eqb (type t) (default "" type_)) txs
               else txs in
    let pageSize := default 10 limit in
    let pageNumber := default 1 page in
    let startIndex := match offset with
                      | Some o => o
                      | None => (pageNumber - 1) * pageSize
                      end in
    let endIndex := startIndex + pageSize in
    let len := Z.of_nat (length txs) in
    RespOk {| os_operations := js_slice txs startIndex endIndex;
              os_total := len;
              os_limit := pageSize;
              os_offset := startIndex;
              os_page := option_map (fun q => q + 1) (js_floor_div startIndex pageSize);
              os_totalPages := js_ceil_div len pageSize;
              os_hasMore := endIndex <? len;
              os_hasPrevious := 0 <? startIndex |}.

(** The [transactions] page of GET /customers/transactions with its list
    under the key [operations]. *)
Definition txPage_as_operations (p : txPage) : opsSimplePage :=
  {| os_operations := tp_transactions p;
     os_total := tp_total p;
     os_limit := tp_limit p;
     os_offset := tp_offset p;
     os_page := tp_page p;
     os_totalPages := tp_totalPages p;
     os_hasMore := tp_hasMore p;
     os_hasPrevious := tp_hasPrevious p |}.

Definition map_response {A B : Type} (f : A -> B) (r : response A) : response B :=
  match r with
  | RespOk x => RespOk (f x)
  | RespErr c d => RespErr c d
  end.


(** GET /operations/:operationId (lines 787-821); [opIdInt] is
    [parseInt(operationId)], [None] for NaN. NaN equals no parsed id and
    fails [opIdInt > 0], so the answer is then 404. *)
Definition get_operation (st : mockData) (phoneNumber : option string)
    (opIdInt : option Z) : response operation :=
  if negb (truthy_str phoneNumber) then RespErr 400 "Phone number is required"
  else
    let p := default "" phoneNumber in
    let txs := default [] (transactions st !! p) in
    match opIdInt with
    | None => RespErr 404 "Operation not found"
    | Some n =>
      let byId := List.find (fun tx =>
                    match digit_prefix_value None (replace_first "TXN_" (id tx)) with
                    | Some txId => Z.eqb txId n
                    | None => false
                    end) txs in
      let found := match byId with
                   | Some tx => Some tx
                   | None => if (0 <? n) && (n <=? Z.of_nat (length txs))
                             then txs !! Z.to_nat (n - 1) else None
                   end in
      match found with
      | Some tx => RespOk (transactionToOperation tx p n)
      | None => RespErr 404 "Operation not found"
      end
    end.

(** [Math.random()] returns a value of [0,1). *)
Definition unit_draw (r : Q) : Prop := (0 <= r)%Q /\ (r < 1)%Q.

Definition draws_ok (d : draws) : Prop :=
  unit_draw (r_type d) /\ unit_draw (r_amount d) /\ unit_draw (r_hour d) /\
  unit_draw (r_minute d) /\ unit_draw (r_desc d) /\ unit_draw (r_status d).

(** Credit types of the generator: [type === 'CASHIN' || type === 'TRANSFER_IN']. *)
Definition is_credit_type (t : string) : bool :=
  String.eqb t "CASHIN" || String.eqb t "TRANSFER_IN".

(** Draws of a fixed value in [0,1), for the examples below. *)
Definition rnd_half (i : nat) : draws :=
  mkDraws (1 # 2) (1 # 2) (1 # 2) (1 # 2) (1 # 2) (1 # 2).

(* ================================================================== *)
(** * Properties *)

(* ------------------------------------------------------------------ *)
(** ** Generator *)

(** C1 (code_bug): replaying the generated list oldest-first from 5000,
    adding each stored [amount], does not reproduce [balanceAfter]: with two
    CASHIN draws of 50.004 the stored amounts are 50.00 and 50.00 while the
    second [balanceAfter] is 5100.01, the rounding of the unrounded running
    balance 5100.008. *)
Lemma generator_replay_fails :
  balance_replay_ok (5000 # 1) (generateFakeTransactions (fun _ _ _ => "") rnd_c1 2)
  = false.
Proof. vm_compute. reflexivity. Qed.

(* ------------------------------------------------------------------ *)
(** ** Operation codes *)





(** Split on the first string comparison of the goal. *)
Ltac type_case :=
  match goal with
  | |- context [String.eqb ?t ?s] =>
      let E := fresh "E" in
      destruct (String.eqb_spec t s) as [E|E]; try (rewrite E in *; simpl)
  end.




(* ------------------------------------------------------------------ *)
(** ** Balance query *)






(* ------------------------------------------------------------------ *)
(** ** Transfer *)






(* ------------------------------------------------------------------ *)
(** ** Customer status *)

(** C8 (counterexample): registering the seeded active customer
    +212600000004 again moves its status from 3 back to 1. *)
Lemma register_lowers_status : ~ status_never_decreases.
Proof.
  intros H.
  specialize (H "now"
    [Register (Some "+212600000004") (Some "Mohammed") (Some "Alami")
              (Some "EF345678") (Some "P")]
    seed_store "+212600000004"
    (mkCustomer 3 "Active customer") (mkCustomer 1 "Customer not confirmed")
    eq_refl eq_refl).
  simpl in H. lia.
Qed.

(** C8 (amended): an accepted register, confirm or create-PIN request sets
    the status of its phone number to 1, 2 or 3 whatever it was before;
    a rejected request and every other phone number keep their entry. *)
Theorem lifecycle_status_update (now : string) (op : lifecycle_op)
    (st : mockData) (q : string) :
  customers (apply_op now op st) !! q =
    if op_accepted op && String.eqb q (op_phone op)
    then Some (mkCustomer (op_level op) (op_message op))
    else customers st !! q.
Proof.
  destruct op; simpl;
    [unfold post_register | unfold post_confirm | unfold post_pin].
  - destruct (_ && _ && _ && _ && _); simpl; [|reflexivity].
    destruct (String.eqb_spec q (default "" phoneNumber)) as [->|Hne].
    + apply lookup_insert_eq.
    + apply lookup_insert_ne. congruence.
  - destruct (_ && _ && _); simpl; [|reflexivity].
    destruct (String.eqb (default "" code) "123456"); simpl; [|reflexivity].
    destruct (String.eqb_spec q (default "" phoneNumber)) as [->|Hne].
    + apply lookup_insert_eq.
    + apply lookup_insert_ne. congruence.
  - destruct (_ && _); simpl; [|reflexivity].
    destruct (String.eqb_spec q (default "" phoneNumber)) as [->|Hne].
    + apply lookup_insert_eq.
    + apply lookup_insert_ne. congruence.
Qed.

(* ------------------------------------------------------------------ *)
(** ** Slicing *)

Lemma js_slice_nonneg {A} (l : list A) (start ps : Z) :
  0 <= start -> 0 < ps ->
  js_slice l start (start + ps) = take (Z.to_nat ps) (drop (Z.to_nat start) l).
Proof.
  intros Hs Hp. unfold js_slice, rel_index.
  rewrite (proj2 (Z.ltb_ge start 0)) by lia.
  rewrite (proj2 (Z.ltb_ge (start + ps) 0)) by lia.
  destruct (Z.le_gt_cases (Z.of_nat (length l)) start) as [Hge|Hlt].
  - rewrite !drop_ge by lia. rewrite !firstn_nil. reflexivity.
  - rewrite (Z.min_l start) by lia. apply list_eq. intros i.
    rewrite !lookup_take, !lookup_drop.
    repeat case_decide; try reflexivity; try lia.
    symmetry. apply lookup_ge_None_2. lia.
Qed.

Lemma js_slice_length {A} (l : list A) (start ps : Z) :
  0 <= start -> 0 < ps ->
  Z.of_nat (length (js_slice l start (start + ps)))
  = Z.min ps (Z.max 0 (Z.of_nat (length l) - start)).
Proof.
  intros Hs Hp. rewrite js_slice_nonneg by assumption.
  rewrite length_take, length_drop. lia.
Qed.

Lemma js_slice_lookup {A} (l : list A) (start end_ : Z) (i : nat) (x : A) :
  js_slice l start end_ !! i = Some x -> exists j, l !! j = Some x.
Proof.
  unfold js_slice. rewrite lookup_take_Some, lookup_drop. intros [H _]. eauto.
Qed.

Lemma filter_filter_andb {A} (p q : A -> bool) (l : list A) :
  List.filter q (List.filter p l) = List.filter (fun x => p x && q x) l.
Proof.
  induction l as [|x l IH]; simpl; [reflexivity|].
  destruct (p x); simpl; [destruct (q x); simpl|]; rewrite IH; reflexivity.
Qed.

Lemma filter_all_true {A} (f : A -> bool) (l : list A) :
  (forall x, f x = true) -> List.filter f l = l.
Proof.
  intros Hf. induction l as [|x l IH]; simpl; [reflexivity|].
  rewrite Hf, IH. reflexivity.
Qed.

Lemma filtered_transactions_spec (up : string -> string) (st : mockData)
    (phone : string) (ot : option (list string)) (ts : option string) :
  filtered_transactions up st phone ot ts
  = List.filter (matches_filters up ot ts) (default [] (transactions st !! phone)).
Proof.
  unfold filtered_transactions, matches_filters.
  destruct ot as [opTypes|]; destruct (truthy_str ts);
    rewrite ?filter_filter_andb;
    first [ apply filter_ext; intros x; rewrite ?andb_true_r; reflexivity
          | symmetry; apply filter_all_true; reflexivity ].
Qed.

Lemma lookup_operation (up : string -> string) (st : mockData) (ph : string)
    (ot : option (list string)) (ts : option string) (ps pn : option Z)
    (r : opsPage) (i : nat) (op : operation) :
  get_operations up st (Some ph) ot ts ps pn = RespOk r ->
  collection r !! i = Some op ->
  let start := (default 1 pn - 1) * default 10 ps in
  exists tx,
    js_slice (filtered_transactions up st ph ot ts) start (start + default 10 ps) !! i
      = Some tx /\
    op = transactionToOperation tx ph (start + Z.of_nat i + 1).
Proof.
  unfold get_operations. destruct (negb (truthy_str (Some ph))); [discriminate|].
  intros H. injection H as <-. simpl.
  rewrite list_lookup_imap. intros Hi.
  destruct (js_slice _ _ _ !! i) as [tx|]; [|discriminate].
  injection Hi as <-. eauto.
Qed.

(* ------------------------------------------------------------------ *)
(** ** GET /operations *)

(** C3: with or without the [operationType] and [transactionStatus]
    filters, [total] is the number of stored records that pass them, and
    every operation on the returned page comes from a stored record that
    passes them. *)
Theorem operations_filter_before_pagination (toUpperCase : string -> string)
    (st : mockData) (ph : string) (ot : option (list string))
    (ts : option string) (ps pn : option Z) (r : opsPage)
    (H : get_operations toUpperCase st (Some ph) ot ts ps pn = RespOk r) :
  op_total r = Z.of_nat (length (List.filter (matches_filters toUpperCase ot ts)
                                    (default [] (transactions st !! ph)))) /\
  (forall i op, collection r !! i = Some op ->
     exists tx, In tx (default [] (transactions st !! ph)) /\
       matches_filters toUpperCase ot ts tx = true /\
       op = transactionToOperation tx ph (operationId op)).
Proof.
  split.
  - revert H. unfold get_operations. destruct (negb (truthy_str (Some ph)));
      [discriminate|].
    intros H. injection H as <-. simpl.
    rewrite filtered_transactions_spec. reflexivity.
  - intros i op Hi.
    destruct (lookup_operation _ _ _ _ _ _ _ _ _ _ H Hi) as [tx [Htx ->]].
    exists tx. destruct (js_slice_lookup _ _ _ _ _ Htx) as [j Hj].
    rewrite filtered_transactions_spec in Hj.
    apply list_elem_of_lookup_2, list_elem_of_In, filter_In in Hj.
    destruct Hj as [Hin Hm]. split; [exact Hin|]. split; [exact Hm|].
    reflexivity.
Qed.

Lemma operations_filter_before_pagination_witness :
  exists r,
    get_operations (fun s => s) sample_store (Some "+212600000004")
      (Some ["CASHIN"]) None None None = RespOk r /\
    (op_total r = Z.of_nat (length (List.filter (matches_filters (fun s => s)
        (Some ["CASHIN"]) None) (default [] (transactions sample_store !! "+212600000004")))) /\
    (forall i op, collection r !! i = Some op ->
       exists tx, In tx (default [] (transactions sample_store !! "+212600000004")) /\
         matches_filters (fun s => s) (Some ["CASHIN"]) None tx = true /\
         op = transactionToOperation tx "+212600000004" (operationId op))).
Proof.
  exists (match get_operations (fun s => s) sample_store (Some "+212600000004")
                  (Some ["CASHIN"]) None None None with
          | RespOk r => r | RespErr _ _ => empty_ops_page end).
  split; [vm_compute; reflexivity|].
  apply (operations_filter_before_pagination (fun s => s) sample_store
           "+212600000004" (Some ["CASHIN"]) None None None).
  vm_compute. reflexivity.
Defined.

(** C9 (code_bug): page -1 of 10 operations of a 25-record list is the
    slice [5, 15), since JS [slice] counts a negative index from the end
    where the clipping of the pagination contract would give an empty
    page; its first operation gets [operationId] (-1 - 1) * 10 + 1 = -19,
    not its position 6 in the list. *)
Lemma operationId_negative_page_counterexample : ~ opIds_are_positions.
Proof.
  intros H.
  pose proof (H (fun s => s) sample_store "+212600000004" None None
                (Some 10) (Some (-1))) as H1.
  destruct (get_operations (fun s => s) sample_store (Some "+212600000004")
              None None (Some 10) (Some (-1))) as [r|] eqn:E;
    [|vm_compute in E; discriminate].
  vm_compute in E. injection E as <-.
  destruct (H1 _ eq_refl 0%nat _ eq_refl) as [Hle _].
  vm_compute in Hle. apply Hle. reflexivity.
Qed.

(** GET /operations numbering: the operation at position [i] of a page carries
    [operationId] = (pageNumber - 1) * pageSize + i + 1; for pageSize > 0
    and pageNumber >= 1 this is the 1-based position, in the filtered list,
    of the record it is built from. *)
Theorem operationId_numbering (toUpperCase : string -> string) (st : mockData)
    (ph : string) (ot : option (list string)) (ts : option string)
    (ps pn : option Z) (r : opsPage)
    (H : get_operations toUpperCase st (Some ph) ot ts ps pn = RespOk r)
    (i : nat) (op : operation) (Hi : collection r !! i = Some op) :
  operationId op = (default 1 pn - 1) * default 10 ps + Z.of_nat i + 1 /\
  (0 < default 10 ps -> 1 <= default 1 pn ->
   1 <= operationId op /\
   exists tx,
     filtered_transactions toUpperCase st ph ot ts !! Z.to_nat (operationId op - 1)
       = Some tx /\
     op = transactionToOperation tx ph (operationId op)).
Proof.
  destruct (lookup_operation _ _ _ _ _ _ _ _ _ _ H Hi) as [tx [Htx ->]].
  cbn [operationId transactionToOperation].
  split; [reflexivity|]. intros Hps Hpn.
  assert (Hs : 0 <= (default 1 pn - 1) * default 10 ps) by nia.
  revert Htx Hs. generalize ((default 1 pn - 1) * default 10 ps). intros s Htx Hs.
  split; [lia|]. exists tx. split; [|reflexivity].
  rewrite js_slice_nonneg in Htx by lia.
  rewrite lookup_take_Some, lookup_drop in Htx. destruct Htx as [Htx _].
  rewrite <- Htx. f_equal. lia.
Qed.

Lemma operationId_numbering_witness :
  get_operations (fun s => s) sample_store (Some "+212600000004") None None
    (Some 10) (Some 2)
  = RespOk (ok_or empty_ops_page (get_operations (fun s => s) sample_store
      (Some "+212600000004") None None (Some 10) (Some 2))) /\
  collection (ok_or empty_ops_page (get_operations (fun s => s) sample_store
      (Some "+212600000004") None None (Some 10) (Some 2))) !! 0%nat
  = Some (default dummy_operation (collection (ok_or empty_ops_page
      (get_operations (fun s => s) sample_store (Some "+212600000004") None None
         (Some 10) (Some 2))) !! 0%nat)) /\
  operationId (default dummy_operation (collection (ok_or empty_ops_page
      (get_operations (fun s => s) sample_store (Some "+212600000004") None None
         (Some 10) (Some 2))) !! 0%nat)) = 11.
Proof.
  assert (E : get_operations (fun s => s) sample_store (Some "+212600000004") None None
                (Some 10) (Some 2)
              = RespOk (ok_or empty_ops_page (get_operations (fun s => s) sample_store
                  (Some "+212600000004") None None (Some 10) (Some 2))))
    by (vm_compute; reflexivity).
  assert (E0 : collection (ok_or empty_ops_page (get_operations (fun s => s)
                 sample_store (Some "+212600000004") None None (Some 10) (Some 2)))
                 !! 0%nat
               = Some (default dummy_operation (collection (ok_or empty_ops_page
                   (get_operations (fun s => s) sample_store (Some "+212600000004")
                      None None (Some 10) (Some 2))) !! 0%nat)))
    by (vm_compute; reflexivity).
  split; [exact E|]. split; [exact E0|].
  exact (proj1 (operationId_numbering (fun s => s) sample_store "+212600000004"
                  None None (Some 10) (Some 2) _ E 0%nat _ E0)).
Defined.

(* ------------------------------------------------------------------ *)
(** ** GET /customers/transactions *)

(** C6: with pageSize > 0, a request with offset (pageNumber - 1) * pageSize
    and one with page pageNumber and no offset give the same response, slice
    and metadata alike; with an offset the reported page is
    floor(offset / pageSize) + 1, and with a page number it is that number. *)
Theorem offset_page_equivalence (st : mockData) (ph : option string)
    (limit : option Z) (pn : Z) (pg : option Z)
    (Hps : 0 < default 10 limit) :
  get_customer_transactions st ph limit (Some ((pn - 1) * default 10 limit)) pg
  = get_customer_transactions st ph limit None (Some pn) /\
  (forall off r, get_customer_transactions st ph limit (Some off) pg = RespOk r ->
     tp_page r = Some (off / default 10 limit + 1)) /\
  (forall r, get_customer_transactions st ph limit None (Some pn) = RespOk r ->
     tp_page r = Some pn).
Proof.
  assert (Hnz : Z.eqb (default 10 limit) 0 = false) by (apply Z.eqb_neq; lia).
  split; [reflexivity|]. split.
  - intros off r. unfold get_customer_transactions.
    destruct (negb (truthy_str ph)); [discriminate|].
    intros H. injection H as <-. cbn [tp_page]. unfold js_floor_div. rewrite Hnz.
    reflexivity.
  - intros r. unfold get_customer_transactions.
    destruct (negb (truthy_str ph)); [discriminate|].
    intros H. injection H as <-. cbn [tp_page]. unfold js_floor_div. rewrite Hnz.
    change (default 1 (Some pn)) with pn.
    rewrite Z.div_mul by lia. cbn [option_map]. f_equal. lia.
Qed.

Lemma offset_page_equivalence_witness :
  get_customer_transactions sample_store (Some "+212600000004") (Some 10)
    (Some ((3 - 1) * default 10 (Some 10))) None
  = get_customer_transactions sample_store (Some "+212600000004") (Some 10) None (Some 3) /\
  (forall off r, get_customer_transactions sample_store (Some "+212600000004")
                   (Some 10) (Some off) None = RespOk r ->
     tp_page r = Some (off / default 10 (Some 10) + 1)) /\
  (forall r, get_customer_transactions sample_store (Some "+212600000004")
               (Some 10) None (Some 3) = RespOk r -> tp_page r = Some 3).
Proof.
  apply (offset_page_equivalence sample_store (Some "+212600000004") (Some 10) 3 None).
  reflexivity.
Defined.

(** C5 (counterexample): page 0 with the default page size 10 on a
    25-record list starts at -10; [slice(-10, 0)] is empty, while
    min(pageSize, max(0, total - start)) is 10. *)
Lemma pagination_page0_counterexample :
  tp_offset (ok_or empty_tx_page (get_customer_transactions sample_store
      (Some "+212600000004") None None (Some 0))) = -10 /\
  tp_total (ok_or empty_tx_page (get_customer_transactions sample_store
      (Some "+212600000004") None None (Some 0))) = 25 /\
  Z.of_nat (length (tp_transactions (ok_or empty_tx_page
      (get_customer_transactions sample_store (Some "+212600000004") None None
         (Some 0))))) = 0 /\
  Z.min 10 (Z.max 0 (25 - (-10))) = 10.
Proof. vm_compute. repeat split. Qed.

(** C5 (amended): for pageSize > 0 and a start index >= 0, the page of
    GET /customers/transactions is the slice [start, start + pageSize) of the
    list clipped to its bounds, of length min(pageSize, max(0, total - start)),
    with hasMore = (start + pageSize < total) and hasPrevious = (start > 0);
    GET /operations (no offset there) pages its filtered list the same way. *)
Theorem pagination_window (toUpperCase : string -> string) (st : mockData)
    (ph : string) (ot : option (list string)) (ts : option string)
    (limit offset page : option Z)
    (Hph : ph <> "") (Hps : 0 < default 10 limit)
    (Hstart : 0 <= tx_startIndex limit offset page) :
  (exists r,
     get_customer_transactions st (Some ph) limit offset page = RespOk r /\
     tp_transactions r = take (Z.to_nat (default 10 limit))
                           (drop (Z.to_nat (tx_startIndex limit offset page))
                              (default [] (transactions st !! ph))) /\
     Z.of_nat (length (tp_transactions r))
       = Z.min (default 10 limit) (Z.max 0 (tp_total r - tx_startIndex limit offset page)) /\
     tp_total r = Z.of_nat (length (default [] (transactions st !! ph))) /\
     tp_hasMore r = (tx_startIndex limit offset page + default 10 limit <? tp_total r) /\
     tp_hasPrevious r = (0 <? tx_startIndex limit offset page)) /\
  (offset = None ->
   exists r,
     get_operations toUpperCase st (Some ph) ot ts limit page = RespOk r /\
     collection r = imap (fun i tx => transactionToOperation tx ph
                            (tx_startIndex limit None page + Z.of_nat i + 1))
                      (take (Z.to_nat (default 10 limit))
                         (drop (Z.to_nat (tx_startIndex limit None page))
                            (filtered_transactions toUpperCase st ph ot ts))) /\
     op_count r
       = Z.min (default 10 limit) (Z.max 0 (op_total r - tx_startIndex limit None page)) /\
     op_total r = Z.of_nat (length (filtered_transactions toUpperCase st ph ot ts)) /\
     op_hasMore r = (tx_startIndex limit None page + default 10 limit <? op_total r) /\
     op_hasPrevious r = (0 <? tx_startIndex limit None page)).
Proof.
  apply String.eqb_neq in Hph.
  split.
  - unfold get_customer_transactions, truthy_str. rewrite Hph. cbn [negb].
    eexists. split; [reflexivity|].
    cbn [tp_transactions tp_total tp_hasMore tp_hasPrevious].
    fold (tx_startIndex limit offset page).
    rewrite js_slice_length, js_slice_nonneg by assumption.
    repeat (split; [reflexivity|]). reflexivity.
  - intros ->. unfold get_operations, truthy_str. rewrite Hph. cbn [negb].
    eexists. split; [reflexivity|].
    cbn [collection op_count op_total op_hasMore op_hasPrevious].
    unfold tx_startIndex in *.
    rewrite length_imap, js_slice_length by assumption.
    rewrite js_slice_nonneg by assumption.
    split; [reflexivity|]. split; [reflexivity|]. split; [reflexivity|].
    split; [reflexivity|].
    destruct (Z.ltb_spec 1 (default 1 page)); destruct (Z.ltb_spec 0 ((default 1 page - 1) * default 10 limit));
      try reflexivity; nia.
Qed.

Lemma pagination_window_witness :
  (exists r,
     get_customer_transactions sample_store (Some "+212600000004") (Some 10) None (Some 2)
       = RespOk r /\
     tp_transactions r = take (Z.to_nat (default 10 (Some 10)))
                           (drop (Z.to_nat (tx_startIndex (Some 10) None (Some 2)))
                              (default [] (transactions sample_store !! "+212600000004"))) /\
     Z.of_nat (length (tp_transactions r))
       = Z.min (default 10 (Some 10))
           (Z.max 0 (tp_total r - tx_startIndex (Some 10) None (Some 2))) /\
     tp_total r = Z.of_nat (length (default [] (transactions sample_store !! "+212600000004"))) /\
     tp_hasMore r = (tx_startIndex (Some 10) None (Some 2) + default 10 (Some 10) <? tp_total r) /\
     tp_hasPrevious r = (0 <? tx_startIndex (Some 10) None (Some 2))) /\
  (@None Z = None ->
   exists r,
     get_operations (fun s => s) sample_store (Some "+212600000004") None None
       (Some 10) (Some 2) = RespOk r /\
     collection r = imap (fun i tx => transactionToOperation tx "+212600000004"
                            (tx_startIndex (Some 10) None (Some 2) + Z.of_nat i + 1))
                      (take (Z.to_nat (default 10 (Some 10)))
                         (drop (Z.to_nat (tx_startIndex (Some 10) None (Some 2)))
                            (filtered_transactions (fun s => s) sample_store
                               "+212600000004" None None))) /\
     op_count r
       = Z.min (default 10 (Some 10))
           (Z.max 0 (op_total r - tx_startIndex (Some 10) None (Some 2))) /\
     op_total r = Z.of_nat (length (filtered_transactions (fun s => s) sample_store
                                      "+212600000004" None None)) /\
     op_hasMore r = (tx_startIndex (Some 10) None (Some 2) + default 10 (Some 10) <? op_total r) /\
     op_hasPrevious r = (0 <? tx_startIndex (Some 10) None (Some 2))).
Proof.
  apply (pagination_window (fun s => s) sample_store "+212600000004" None None
           (Some 10) None (Some 2)); [discriminate | reflexivity | discriminate].
Defined.

(* ------------------------------------------------------------------ *)
(** ** Counter-party extraction *)

Lemma digits_n_spec (n : nat) (t ds : string) :
  digits_n n t = Some ds <->
  exists rest, t = ds +:+ rest /\ String.length ds = n /\ all_digits ds = true.
Proof.
  revert t ds. induction n as [|k IH]; intros t ds; simpl.
  - split.
    + intros H. injection H as <-. exists t. auto.
    + intros [rest [_ [Hl _]]]. destruct ds; [reflexivity|discriminate].
  - destruct t as [|c t].
    + split; [discriminate|]. intros [rest [Ht [Hl _]]].
      destruct ds; [discriminate|discriminate].
    + destruct (is_digit c) eqn:Hc.
      * split.
        -- intros H. destruct (digits_n k t) as [ds'|] eqn:E; [|discriminate].
           injection H as <-. apply IH in E as [rest [-> [Hl Hd]]].
           exists rest. simpl. rewrite Hl, Hc, Hd. auto.
        -- intros [rest [Ht [Hl Hd]]]. destruct ds as [|c' ds']; [discriminate|].
           simpl in Ht, Hl, Hd. injection Ht as <- Ht. injection Hl as Hl.
           apply andb_prop in Hd as [_ Hd].
           assert (E : digits_n k t = Some ds') by (apply IH; eauto).
           rewrite E. reflexivity.
      * split; [discriminate|]. intros [rest [Ht [Hl Hd]]].
        destruct ds as [|c' ds']; [discriminate Hl|].
        simpl in Ht, Hd. injection Ht as <- _. rewrite Hc in Hd. discriminate.
Qed.

Lemma match_at_spec (s m : string) :
  match_at s = Some m <-> exists rest, s = m +:+ rest /\ phone_shaped m.
Proof.
  split.
  - unfold match_at.
    destruct s as [|a [|b [|c [|d t]]]]; try discriminate.
    destruct (Ascii.eqb_spec a "+"); destruct (Ascii.eqb_spec b "2");
      destruct (Ascii.eqb_spec c "1"); destruct (Ascii.eqb_spec d "2");
      cbn [andb]; try discriminate; subst.
    destruct (digits_n 9 t) as [ds|] eqn:E; [|intros H; discriminate H].
    intros H. injection H as <-.
    apply digits_n_spec in E as [rest [-> [Hl Hd]]].
    exists rest. split; [reflexivity|]. exists ds. auto.
  - intros [rest [-> [ds [-> [Hl Hd]]]]]. unfold match_at.
    change (("+212" +:+ ds) +:+ rest)
      with (String "+" (String "2" (String "1" (String "2" (ds +:+ rest))))).
    cbn -[digits_n].
    assert (E : digits_n 9 (ds +:+ rest) = Some ds) by (apply digits_n_spec; eauto).
    rewrite E. reflexivity.
Qed.

Lemma find_phone_cons (c : ascii) (t : string) :
  find_phone (String c t)
  = match match_at (String c t) with Some m => Some m | None => find_phone t end.
Proof. reflexivity. Qed.

Lemma find_phone_none (s : string) :
  find_phone s = None ->
  forall pre m post, s = pre +:+ m +:+ post -> ~ phone_shaped m.
Proof.
  induction s as [|c t IH]; intros H pre m post Hs Hm.
  - destruct pre; [|discriminate].
    assert (E : match_at EmptyString = Some m).
    { apply match_at_spec. exists post. auto. }
    discriminate.
  - rewrite find_phone_cons in H.
    destruct (match_at (String c t)) eqn:E; [discriminate|].
    destruct pre as [|c' pre'].
    + simpl in Hs. assert (E' : match_at (String c t) = Some m).
      { apply match_at_spec. exists post. auto. }
      congruence.
    + simpl in Hs. injection Hs as _ Ht. exact (IH H pre' m post Ht Hm).
Qed.

Lemma find_phone_some (s m : string) :
  find_phone s = Some m ->
  exists pre post, s = pre +:+ m +:+ post /\ phone_shaped m /\
    (forall pre' m' post', s = pre' +:+ m' +:+ post' -> phone_shaped m' ->
       (String.length pre <= String.length pre')%nat).
Proof.
  revert m. induction s as [|c t IH]; intros m H.
  - discriminate.
  - rewrite find_phone_cons in H.
    destruct (match_at (String c t)) as [m0|] eqn:E.
    + injection H as <-. apply match_at_spec in E as [rest [Hs Hm]].
      exists EmptyString, rest. split; [exact Hs|]. split; [exact Hm|].
      intros. simpl. lia.
    + destruct (IH m H) as [pre [post [Ht [Hm Hleft]]]].
      exists (String c pre), post. split; [rewrite Ht; reflexivity|].
      split; [exact Hm|].
      intros pre' m' post' Hs Hm'. destruct pre' as [|c' pre''].
      * exfalso. assert (E' : match_at (String c t) = Some m').
        { apply match_at_spec. exists post'. auto. }
        congruence.
      * simpl in Hs |- *. injection Hs as _ Ht'.
        specialize (Hleft pre'' m' post' Ht' Hm'). lia.
Qed.

(** C2 (counterexample): a TRANSFER_OUT whose description names the
    French number +33612345678 gets receiver [None]: the code only
    recognises "+212" followed by nine digits. *)
Lemma extract_foreign_phone_counterexample :
  receiver (extractPhoneNumbers tx_foreign "+212600000004") = None /\
  spec_first_phone (description tx_foreign) = Some "+33612345678".
Proof. split; reflexivity. Qed.

(** C2 (amended): TRANSFER_OUT gives sender = owner, receiver = the
    leftmost substring of the description matching "+212" followed by nine
    digits (none when there is none) and beneficiary = the description;
    TRANSFER_IN the same with sender and receiver swapped; CASHIN and
    CASHOUT give sender = receiver = owner. *)
Theorem extractPhoneNumbers_parties (tx : transaction) (p : string) :
  (type tx = "TRANSFER_OUT" ->
   extractPhoneNumbers tx p
   = mkParties (Some p) (find_phone (description tx)) (Some (description tx))) /\
  (type tx = "TRANSFER_IN" ->
   extractPhoneNumbers tx p
   = mkParties (find_phone (description tx)) (Some p) (Some (description tx))) /\
  (type tx = "CASHIN" \/ type tx = "CASHOUT" ->
   sender (extractPhoneNumbers tx p) = Some p /\
   receiver (extractPhoneNumbers tx p) = Some p) /\
  (forall m, find_phone (description tx) = Some m ->
   exists pre post, description tx = pre +:+ m +:+ post /\ phone_shaped m /\
     (forall pre' m' post', description tx = pre' +:+ m' +:+ post' ->
        phone_shaped m' -> (String.length pre <= String.length pre')%nat)) /\
  (find_phone (description tx) = None ->
   forall pre m post, description tx = pre +:+ m +:+ post -> ~ phone_shaped m).
Proof.
  split; [|split; [|split; [|split]]].
  - intros E. unfold extractPhoneNumbers. rewrite E. reflexivity.
  - intros E. unfold extractPhoneNumbers. rewrite E. reflexivity.
  - intros [E|E]; unfold extractPhoneNumbers; rewrite E; split; reflexivity.
  - apply find_phone_some.
  - apply find_phone_none.
Qed.

(* ================================================================== *)
(** * Further properties of the handlers and the generator *)

Lemma string_length_app (u v : string) :
  String.length (u +:+ v) = (String.length u + String.length v)%nat.
Proof. induction u as [|c u IH]; [reflexivity|]. exact (f_equal S IH). Qed.

Lemma string_app_assoc (u v w : string) : (u +:+ v) +:+ w = u +:+ (v +:+ w).
Proof. induction u as [|c u IH]; [reflexivity|]. exact (f_equal (String c) IH). Qed.

Lemma substring_0_full (t : string) (m : nat) :
  (String.length t <= m)%nat -> substring 0 m t = t.
Proof.
  revert m. induction t as [|c t IH]; intros m Hm; destruct m; simpl in *;
    try reflexivity; try lia.
  rewrite IH by lia. reflexivity.
Qed.

Lemma length_substring (s : string) (n m : nat) :
  (n + m <= String.length s)%nat -> String.length (substring n m s) = m.
Proof.
  revert n m. induction s as [|c s IH]; intros n m H; simpl in *.
  - destruct n, m; simpl in *; lia.
  - destruct n as [|n].
    + destruct m as [|m]; simpl; [reflexivity|]. rewrite IH by lia. reflexivity.
    + apply IH. lia.
Qed.

Lemma remove_non_digits_replace_plus (s : string) :
  remove_non_digits (replace_first "+" s) = remove_non_digits s.
Proof.
  induction s as [|c t IH]; [reflexivity|].
  unfold replace_first; fold replace_first.
  destruct (String.prefix "+" (String c t)) eqn:E.
  - cbn [String.prefix] in E. destruct (ascii_dec "+" c) as [<-|]; [|discriminate].
    simpl. rewrite substring_0_full by lia. reflexivity.
  - simpl. rewrite IH. reflexivity.
Qed.

Lemma all_digits_remove_non_digits (s : string) :
  all_digits (remove_non_digits s) = true.
Proof.
  induction s as [|c t IH]; simpl; [reflexivity|].
  destruct (is_digit c) eqn:E; simpl; [rewrite E, IH|]; auto.
Qed.

Lemma slice_last4_length (s : string) :
  String.length (slice_last4 s) = Nat.min 4 (String.length s).
Proof. unfold slice_last4. rewrite length_substring by lia. lia. Qed.

(** GET /customers/status and GET /customers/default agree: without a
    truthy phone number both answer 400; the status handler's empty 204
    answer comes exactly when the default handler answers 404, and it
    returns a status object exactly when the default handler answers
    [true]. *)
Theorem status_default_agree (st : mockData) (ph : option string) :
  (truthy_str ph = false ->
   get_customer_status st ph = RespErr 400 "Phone number is required" /\
   get_customer_default st ph = RespErr 400 "Phone number is required") /\
  (get_customer_status st ph = RespOk None <->
   get_customer_default st ph = RespErr 404 "Customer not found") /\
  ((exists si, get_customer_status st ph = RespOk (Some si)) <->
   get_customer_default st ph = RespOk true).
Proof.
  unfold get_customer_status, get_customer_default.
  destruct (truthy_str ph); cbn [negb].
  2:{ split; [auto|]. split; [split; discriminate|].
      split; [intros [? H]; discriminate | discriminate]. }
  split; [discriminate|].
  destruct (customers st !! default "" ph) as [cs|].
  - destruct (Z.eqb (cust_status cs) 0).
    + split; [split; reflexivity|].
      split; [intros [? H]; discriminate | discriminate].
    + split; [split; discriminate|].
      split; [intros _; reflexivity | intros _; eexists; reflexivity].
  - split; [split; reflexivity|].
    split; [intros [? H]; discriminate | discriminate].
Qed.

(** The identifiers the handlers derive from a phone number: the status
    object's [id] is ["customer-"] followed by the phone's digits, its
    [phoneNumber] is the queried one and its stored status is not 0; the
    info object's [id] is the phone's digits and its [rib] is the fixed
    18-character prefix followed by the phone's last (at most) four
    characters. *)
Theorem customer_ids (now : string) (st : mockData) (p : string) :
  (forall si, get_customer_status st (Some p) = RespOk (Some si) ->
     si_id si = "customer-" +:+ remove_non_digits p /\
     si_phoneNumber si = p /\
     (exists c, customers st !! p = Some c /\ si_status si = cust_status c /\
                cust_status c <> 0)) /\
  (forall ci, get_customer_info now st (Some p) = RespOk ci ->
     ci_id ci = remove_non_digits p /\
     ci_rib ci = "827640000010000000" +:+ slice_last4 p /\
     String.length (ci_rib ci) = (18 + Nat.min 4 (String.length p))%nat) /\
  all_digits (remove_non_digits p) = true.
Proof.
  split; [|split; [|apply all_digits_remove_non_digits]].
  - intros si. unfold get_customer_status.
    destruct (negb (truthy_str (Some p))); [intros H; discriminate H|]. change (default "" (Some p)) with p.
    destruct (customers st !! p) as [c|] eqn:Hc; [|intros H; discriminate H].
    destruct (Z.eqb_spec (cust_status c) 0); [intros H; discriminate H|].
    intros H. injection H as <-. cbn.
    rewrite remove_non_digits_replace_plus.
    split; [reflexivity|]. split; [reflexivity|]. exists c. auto.
  - intros ci. unfold get_customer_info.
    destruct (negb (truthy_str (Some p))); [intros H; discriminate H|]. change (default "" (Some p)) with p.
    destruct (registrations st !! p); [|intros H; discriminate H].
    intros H. injection H as <-. cbn.
    rewrite remove_non_digits_replace_plus, string_length_app, slice_last4_length.
    auto.
Qed.

Lemma truthy_some (x : string) : x <> "" -> truthy_str (Some x) = true.
Proof. intros H. unfold truthy_str. apply String.eqb_neq in H. rewrite H. reflexivity. Qed.

(** POST /customers/register followed by the lookup handlers: the new
    registration is reported by GET /customers/info with status 1 and the
    given fields, by GET /customers/status with the given wallet type and
    names, and by GET /customers/default as [true]. *)
Theorem register_then_lookup (now now' : string) (st : mockData)
    (p f l c w : string) (Hp : p <> "") (Hf : f <> "") (Hl : l <> "")
    (Hc : c <> "") (Hw : w <> "") :
  let st' := snd (post_register now st (Some p) (Some f) (Some l) (Some c) (Some w)) in
  fst (post_register now st (Some p) (Some f) (Some l) (Some c) (Some w)) = RespOk true /\
  get_customer_info now' st' (Some p) =
    RespOk (mkCustomerInfo (remove_non_digits p) p f l c w 1 1
              ("827640000010000000" +:+ slice_last4 p) (balance_or_zero st p) now now') /\
  get_customer_status st' (Some p) =
    RespOk (Some (mkStatusInfo ("customer-" +:+ remove_non_digits p) p 1 w
                    (balance_or_zero st p) "MAD" (Some f) (Some l) (Some now))) /\
  get_customer_default st' (Some p) = RespOk true.
Proof.
  cbn zeta. unfold post_register.
  rewrite !truthy_some by assumption. cbn [andb negb fst snd].
  change (default "" (Some p)) with p. change (default "" (Some f)) with f.
  change (default "" (Some l)) with l. change (default "" (Some c)) with c.
  change (default "" (Some w)) with w.
  unfold get_customer_info, get_customer_status, get_customer_default.
  rewrite truthy_some by assumption. cbn [negb]. change (default "" (Some p)) with p.
  unfold set_customers, set_registrations, status_or_zero, balance_or_zero.
  cbn [customers registrations balances].
  rewrite !lookup_insert_eq. cbn.
  apply String.eqb_neq in Hw. rewrite Hw, remove_non_digits_replace_plus.
  repeat split; reflexivity.
Qed.


Lemma post_login_set_pins (st : mockData) (m : gmap string string) (ph x : option string) :
  post_login (set_pins st m) ph x = post_login st ph x.
Proof. reflexivity. Qed.

(** Register, confirm with the OTP ["123456"] and set a PIN: the PIN is
    stored, yet login checks the submitted PIN against ["1234"], not
    against the stored one. *)
Theorem login_after_activation (now : string) (st : mockData)
    (p f l c w w' pin x : string) (Hp : p <> "") (Hf : f <> "") (Hl : l <> "")
    (Hc : c <> "") (Hw : w <> "") (Hw' : w' <> "") (Hpin : pin <> "") (Hx : x <> "") :
  let st1 := snd (post_register now st (Some p) (Some f) (Some l) (Some c) (Some w)) in
  let st2 := snd (post_confirm st1 (Some p) (Some "123456") (Some w')) in
  let st3 := snd (post_pin st2 (Some p) (Some pin)) in
  pins st3 !! p = Some pin /\
  post_login st3 (Some p) (Some x) =
    RespOk (mkLoginResponse (String.eqb x "1234") (if String.eqb x "1234" then 3 else 2)).
Proof.
  cbn zeta. unfold post_register, post_confirm, post_pin.
  rewrite !truthy_some by (assumption || discriminate). cbn [andb negb fst snd].
  change (default "" (Some "123456")) with "123456". cbn [String.eqb negb].
  change (default "" (Some p)) with p. change (default "" (Some pin)) with pin.
  unfold set_customers, set_pins, set_registrations. cbn [pins customers].
  split; [apply lookup_insert_eq|].
  unfold post_login. rewrite !truthy_some by assumption. cbn [andb negb customers].
  change (default "" (Some p)) with p. change (default "" (Some x)) with x.
  rewrite lookup_insert_eq. reflexivity.
Qed.

(** PUT /customers/pin never checks the old PIN: with the three fields
    present it always succeeds, stores the new PIN for the phone, and
    leaves every other map, every other PIN and every login answer
    unchanged. *)
Theorem put_pin_unchecked (st : mockData) (p oldPin newPin : string)
    (Hp : p <> "") (Ho : oldPin <> "") (Hn : newPin <> "") :
  let st' := snd (put_pin st (Some p) (Some oldPin) (Some newPin)) in
  fst (put_pin st (Some p) (Some oldPin) (Some newPin)) = RespOk true /\
  pins st' !! p = Some newPin /\
  (forall q, q <> p -> pins st' !! q = pins st !! q) /\
  customers st' = customers st /\ registrations st' = registrations st /\
  balances st' = balances st /\ transactions st' = transactions st /\
  (forall ph x, post_login st' ph x = post_login st ph x).
Proof.
  cbn zeta. unfold put_pin. rewrite !truthy_some by assumption.
  cbn [andb negb fst snd]. change (default "" (Some p)) with p.
  change (default "" (Some newPin)) with newPin.
  split; [reflexivity|]. unfold set_pins; cbn [pins customers registrations balances transactions].
  split; [apply lookup_insert_eq|].
  split; [intros q Hq; apply lookup_insert_ne; congruence|].
  repeat (split; [reflexivity|]). intros ph x. apply post_login_set_pins.
Qed.




(* ---- generator ids ---- *)

Lemma gen_loop_length (isoDate : Z -> Z -> Z -> string) (rnd : nat -> draws)
    (count n : nat) :
  length (fst (gen_loop isoDate rnd count n)) = n.
Proof.
  induction n as [|n IH]; [reflexivity|]. cbn [gen_loop].
  destruct (gen_loop isoDate rnd count n) as [txs bal]. cbn in *. rewrite IH. reflexivity.
Qed.

Lemma gen_loop_ids (isoDate : Z -> Z -> Z -> string) (rnd : nat -> draws)
    (count n k : nat) (tx : transaction) :
  fst (gen_loop isoDate rnd count n) !! k = Some tx ->
  (k < n)%nat /\ id tx = "TXN_" +:+ padStart 3 (pretty (n - k)%nat).
Proof.
  revert k. induction n as [|n IH]; intros k; [intros H; discriminate H|].
  cbn [gen_loop]. destruct (gen_loop isoDate rnd count n) as [txs bal] eqn:E.
  cbn [fst] in IH. unfold gen_step. cbn [fst].
  destruct k as [|k].
  - intros H. injection H as <-. split; [lia|]. cbn [id].
    rewrite Nat.add_1_r, Nat.sub_0_r. reflexivity.
  - cbn [lookup list_lookup]. intros H. destruct (IH k H) as [Hk Hid].
    split; [lia|]. rewrite Hid. reflexivity.
Qed.

Lemma pretty_N_char_digit (d : N) :
  (d < 10)%N ->
  is_digit (pretty_N_char d) = true /\
  Z.of_nat (nat_of_ascii (pretty_N_char d)) - 48 = Z.of_N d.
Proof.
  intros Hd.
  assert (d = 0 \/ d = 1 \/ d = 2 \/ d = 3 \/ d = 4 \/ d = 5 \/ d = 6 \/ d = 7
          \/ d = 8 \/ d = 9)%N as Hc by lia.
  repeat destruct Hc as [->|Hc]; [..|subst]; split; reflexivity.
Qed.

Lemma pretty_N_go_app (x : N) (s : string) :
  pretty_N_go x s = pretty_N_go x "" +:+ s.
Proof.
  revert s. induction (N.lt_wf_0 x) as [x _ IH]; intros s.
  destruct (N.eq_dec x 0%N) as [->|Hx]; [reflexivity|].
  rewrite (pretty_N_go_step x s), (pretty_N_go_step x "") by lia.
  assert (Hlt : (x `div` 10 < x)%N) by (apply N.div_lt; lia).
  rewrite (IH _ Hlt (String _ s)), (IH _ Hlt (String _ "")).
  rewrite string_app_assoc. reflexivity.
Qed.

Lemma all_digits_app (u v : string) :
  all_digits (u +:+ v) = all_digits u && all_digits v.
Proof.
  induction u as [|c u IH]; [reflexivity|].
  change (all_digits (String c (u +:+ v)) = all_digits (String c u) && all_digits v).
  cbn [all_digits]. rewrite IH. apply andb_assoc.
Qed.

Lemma digit_prefix_value_app (acc : option Z) (u v : string) :
  all_digits u = true ->
  digit_prefix_value acc (u +:+ v) = digit_prefix_value (digit_prefix_value acc u) v.
Proof.
  revert acc. induction u as [|c u IH]; intros acc Hu; [reflexivity|].
  cbn [all_digits] in Hu. apply andb_prop in Hu as [Hc Hu].
  change (digit_prefix_value acc (String c (u +:+ v))
          = digit_prefix_value (digit_prefix_value acc (String c u)) v).
  cbn [digit_prefix_value]. rewrite Hc. apply IH, Hu.
Qed.

Lemma pretty_N_go_value (x : N) :
  all_digits (pretty_N_go x "") = true /\
  digit_prefix_value None (pretty_N_go x "")
  = if decide (x = 0)%N then None else Some (Z.of_N x).
Proof.
  induction (N.lt_wf_0 x) as [x _ IH].
  destruct (N.eq_dec x 0%N) as [->|Hx]; [split; reflexivity|].
  rewrite (pretty_N_go_step x "") by lia. rewrite pretty_N_go_app.
  assert (Hlt : (x `div` 10 < x)%N) by (apply N.div_lt; lia).
  destruct (IH _ Hlt) as [Hd Hv].
  destruct (pretty_N_char_digit (x `mod` 10)%N) as [Hdig Hval]; [apply N.mod_lt; lia|].
  split.
  - rewrite all_digits_app, Hd. cbn. rewrite Hdig. reflexivity.
  - rewrite digit_prefix_value_app by exact Hd. rewrite Hv.
    destruct (decide (x = 0)%N) as [|_]; [lia|].
    cbn [digit_prefix_value]. rewrite Hdig. rewrite Hval.
    f_equal. pose proof (N.div_mod x 10) as Hdm.
    destruct (decide (x `div` 10 = 0)%N) as [E|E]; cbn [default from_option];
      unfold Datatypes.id; rewrite ?E in Hdm; lia.
Qed.

Lemma pretty_nat_value (n : nat) :
  all_digits (pretty n) = true /\ pretty n <> "" /\
  digit_prefix_value None (pretty n) = Some (Z.of_nat n).
Proof.
  assert (Hp : pretty n = if decide (N.of_nat n = 0%N) then "0"
                          else pretty_N_go (N.of_nat n) "") by reflexivity.
  rewrite Hp. destruct (decide (N.of_nat n = 0%N)) as [E|E].
  - replace n with 0%nat by lia. split; [reflexivity|]. split; [discriminate|reflexivity].
  - destruct (pretty_N_go_value (N.of_nat n)) as [Hd Hv].
    rewrite Hv. destruct (decide (N.of_nat n = 0%N)); [contradiction|].
    split; [exact Hd|]. split; [|f_equal; lia].
    rewrite (pretty_N_go_step _ "") by lia. rewrite pretty_N_go_app.
    intros H. apply (f_equal String.length) in H. rewrite string_length_app in H.
    cbn in H. lia.
Qed.

Lemma zeros_length (k : nat) : String.length (zeros k) = k.
Proof. induction k as [|k IH]; [reflexivity|]. exact (f_equal S IH). Qed.

Lemma all_digits_zeros (k : nat) : all_digits (zeros k) = true.
Proof. induction k as [|k IH]; [reflexivity|]. cbn [zeros all_digits]. rewrite IH. reflexivity. Qed.

Lemma padStart_length (w : nat) (s : string) :
  String.length (padStart w s) = Nat.max w (String.length s).
Proof. unfold padStart. rewrite string_length_app, zeros_length. lia. Qed.

Lemma padStart_idem (w : nat) (s : string) : padStart w (padStart w s) = padStart w s.
Proof.
  unfold padStart at 1. rewrite padStart_length.
  replace (w - Nat.max w (String.length s))%nat with 0%nat by lia. reflexivity.
Qed.

Lemma digit_prefix_value_zeros_lead (k : nat) (c : ascii) (u : string) :
  is_digit c = true ->
  digit_prefix_value None (zeros k +:+ String c u) = digit_prefix_value None (String c u).
Proof.
  intros Hc.
  rewrite digit_prefix_value_app by apply all_digits_zeros.
  destruct k as [|k]; [reflexivity|].
  assert (Hz : digit_prefix_value None (zeros (S k)) = Some 0).
  { cbn [zeros digit_prefix_value]. change (is_digit "0") with true. cbn.
    clear. induction k as [|k IH]; [reflexivity|]. cbn [zeros digit_prefix_value].
    change (is_digit "0") with true. cbn. exact IH. }
  rewrite Hz. cbn [digit_prefix_value]. rewrite Hc. reflexivity.
Qed.

Lemma prefix_app (u v : string) : String.prefix u (u +:+ v) = true.
Proof.
  induction u as [|c u IH]; [destruct v; reflexivity|].
  change (String.prefix (String c u) (String c (u +:+ v)) = true).
  cbn [String.prefix]. destruct (ascii_dec c c) as [_|n]; [exact IH|contradiction].
Qed.

Lemma substring_app (u s : string) (m : nat) :
  (String.length s <= m)%nat -> substring (String.length u) m (u +:+ s) = s.
Proof.
  intros Hm. induction u as [|c u IH].
  - apply substring_0_full, Hm.
  - change (substring (S (String.length u)) m (String c (u +:+ s)) = s).
    cbn [substring]. destruct m; [|exact IH].
    destruct s; [|cbn in Hm; lia]. exact IH.
Qed.

Lemma replace_first_eq (pat s : string) :
  replace_first pat s =
  if String.prefix pat s then substring (String.length pat) (String.length s) s
  else match s with
       | EmptyString => EmptyString
       | String c t => String c (replace_first pat t)
       end.
Proof. destruct s; reflexivity. Qed.

Lemma replace_first_prefix (pat s : string) :
  replace_first pat (pat +:+ s) = s.
Proof.
  destruct pat as [|c pat].
  - destruct s as [|a t]; [reflexivity|]. simpl.
    rewrite substring_0_full by lia. reflexivity.
  - rewrite replace_first_eq, prefix_app.
    apply (substring_app (String c pat)). rewrite string_length_app. lia.
Qed.

(** The id [TXN_nnn] the generator gives record [n] parses back to [n]. *)
Lemma parse_generated_id (n : nat) :
  digit_prefix_value None (replace_first "TXN_" ("TXN_" +:+ padStart 3 (pretty n)))
  = Some (Z.of_nat n).
Proof.
  rewrite replace_first_prefix. unfold padStart.
  destruct (pretty_nat_value n) as [Hd [Hne Hv]].
  destruct (pretty n) as [|c u] eqn:E; [contradiction|].
  cbn [all_digits] in Hd. apply andb_prop in Hd as [Hc _].
  rewrite digit_prefix_value_zeros_lead by exact Hc. exact Hv.
Qed.

Lemma find_some_first {A} (f : A -> bool) (l : list A) (x : A) :
  List.find f l = Some x ->
  exists k, l !! k = Some x /\ f x = true /\
    forall j y, (j < k)%nat -> l !! j = Some y -> f y = false.
Proof.
  induction l as [|a l IH]; [intros H; discriminate H|]. cbn [List.find].
  destruct (f a) eqn:Ha.
  - intros H. injection H as <-. exists 0%nat. split; [reflexivity|].
    split; [exact Ha|]. intros j y Hj. lia.
  - intros H. destruct (IH H) as [k [Hk [Hx Hb]]]. exists (S k).
    split; [exact Hk|]. split; [exact Hx|].
    intros [|j] y Hj Hy; [injection Hy as <-; exact Ha|].
    apply (Hb j); [lia|exact Hy].
Qed.

Lemma find_at_first {A} (f : A -> bool) (l : list A) (k : nat) (x : A) :
  l !! k = Some x -> f x = true ->
  (forall j y, (j < k)%nat -> l !! j = Some y -> f y = false) ->
  List.find f l = Some x.
Proof.
  revert k. induction l as [|a l IH]; intros k Hk Hx Hb; [discriminate Hk|].
  cbn [List.find]. destruct k as [|k].
  - injection Hk as <-. rewrite Hx. reflexivity.
  - rewrite (Hb 0%nat a) by (reflexivity || lia).
    apply (IH k Hk Hx). intros j y Hj Hy. apply (Hb (S j)); [lia|exact Hy].
Qed.

Lemma find_none_all {A} (f : A -> bool) (l : list A) :
  List.find f l = None <-> forall x, In x l -> f x = false.
Proof.
  induction l as [|a l IH]; cbn [List.find In]; [split; [intros _ x []|reflexivity]|].
  destruct (f a) eqn:Ha; split.
  - discriminate.
  - intros H. rewrite (H a (or_introl eq_refl)) in Ha. discriminate.
  - intros H x [<-|Hx]; [exact Ha|]. apply IH; assumption.
  - intros H. apply IH. intros x Hx. apply H. right. exact Hx.
Qed.

(** [generateFakeTransactions count] returns [count] records, newest
    first: the record at index [k] has id ["TXN_"] followed by
    [count - k] padded to three digits, and its operation view's
    [transactionId] is [count - k]. *)
Theorem generated_ids (isoDate : Z -> Z -> Z -> string) (rnd : nat -> draws)
    (count : nat) (phone : string) (opId : Z) :
  let txs := generateFakeTransactions isoDate rnd count in
  length txs = count /\
  forall k tx, txs !! k = Some tx ->
    (k < count)%nat /\
    id tx = "TXN_" +:+ padStart 3 (pretty (count - k)%nat) /\
    transactionId (transactionToOperation tx phone opId) = Some (Z.of_nat (count - k)).
Proof.
  cbn zeta. unfold generateFakeTransactions. split; [apply gen_loop_length|].
  intros k tx Hk. destruct (gen_loop_ids _ _ _ _ _ _ Hk) as [Hlt Hid].
  split; [exact Hlt|]. split; [exact Hid|].
  cbn [transactionToOperation transactionId]. rewrite Hid. apply parse_generated_id.
Qed.

(** GET /customers/transactions/:transactionId pads the id to three digits
    (so an id already padded gives the same answer), returns the first
    record whose id is ["TXN_"] followed by the padded id, and answers 404
    exactly when no record has that id. *)
Theorem get_transaction_lookup (st : mockData) (p t : string) (Hp : p <> "") :
  let txs := default [] (transactions st !! p) in
  get_transaction st (Some p) (padStart 3 t) = get_transaction st (Some p) t /\
  (forall tx, get_transaction st (Some p) t = RespOk tx ->
     id tx = "TXN_" +:+ padStart 3 t /\
     exists k, txs !! k = Some tx /\
       forall j tx', (j < k)%nat -> txs !! j = Some tx' -> id tx' <> id tx) /\
  (get_transaction st (Some p) t = RespErr 404 "Transaction not found" <->
   forall tx, In tx txs -> id tx <> "TXN_" +:+ padStart 3 t).
Proof.
  cbn zeta. unfold get_transaction. rewrite truthy_some by assumption. cbn [negb].
  change (default "" (Some p)) with p. rewrite padStart_idem.
  split; [reflexivity|]. split.
  - intros tx. destruct (List.find _ _) as [tx'|] eqn:E; [|intros H; discriminate H].
    intros H. injection H as <-.
    destruct (find_some_first _ _ _ E) as [k [Hk [Hx Hb]]].
    apply String.eqb_eq in Hx. split; [exact Hx|]. exists k. split; [exact Hk|].
    intros j y Hj Hy. specialize (Hb j y Hj Hy). apply String.eqb_neq in Hb.
    rewrite Hx. exact Hb.
  - destruct (List.find _ _) as [tx'|] eqn:E.
    + split; [intros H; discriminate H|]. intros Hall.
      destruct (find_some_first _ _ _ E) as [k [Hk [Hx _]]].
      apply String.eqb_eq in Hx. exfalso. apply (Hall tx'); [|exact Hx].
      apply list_elem_of_In, list_elem_of_lookup_2 with k, Hk.
    + split; [|reflexivity]. intros _ tx Hin.
      rewrite find_none_all in E. apply String.eqb_neq, E, Hin.
Qed.

(** For a generated history, transaction number [n] (1 <= n <= count) is
    found by GET /customers/transactions/:n and by GET /operations/:n,
    both at index [count - n], and its operation view carries
    [transactionId] [n]. *)
Theorem generated_lookup_by_number (isoDate : Z -> Z -> Z -> string)
    (rnd : nat -> draws) (count : nat) (st : mockData) (p : string) (n : nat)
    (Hp : p <> "")
    (Hst : transactions st !! p = Some (generateFakeTransactions isoDate rnd count))
    (Hn : (1 <= n <= count)%nat) :
  exists tx,
    generateFakeTransactions isoDate rnd count !! (count - n)%nat = Some tx /\
    id tx = "TXN_" +:+ padStart 3 (pretty n) /\
    get_transaction st (Some p) (pretty n) = RespOk tx /\
    get_operation st (Some p) (Some (Z.of_nat n))
      = RespOk (transactionToOperation tx p (Z.of_nat n)) /\
    transactionId (transactionToOperation tx p (Z.of_nat n)) = Some (Z.of_nat n).
Proof.
  set (txs := generateFakeTransactions isoDate rnd count).
  assert (Hlen : length txs = count) by apply gen_loop_length.
  destruct (lookup_lt_is_Some_2 txs (count - n)%nat) as [tx Htx]; [lia|].
  assert (Hids : forall k y, txs !! k = Some y ->
            id y = "TXN_" +:+ padStart 3 (pretty (count - k)%nat))
    by (intros k y Hk; exact (proj2 (gen_loop_ids _ _ _ _ _ _ Hk))).
  assert (Hid : id tx = "TXN_" +:+ padStart 3 (pretty n)).
  { rewrite (Hids _ _ Htx). do 3 f_equal. lia. }
  assert (Hparse : forall k y, txs !! k = Some y ->
            digit_prefix_value None (replace_first "TXN_" (id y))
            = Some (Z.of_nat (count - k))).
  { intros k y Hk. rewrite (Hids _ _ Hk). apply parse_generated_id. }
  assert (Hearlier : forall j y, (j < count - n)%nat -> txs !! j = Some y ->
            digit_prefix_value None (replace_first "TXN_" (id y)) <> Some (Z.of_nat n)).
  { intros j y Hj Hy. rewrite (Hparse _ _ Hy). intros E. injection E. lia. }
  assert (Hop : transactionId (transactionToOperation tx p (Z.of_nat n)) = Some (Z.of_nat n)).
  { cbn [transactionToOperation transactionId]. rewrite (Hparse _ _ Htx). f_equal. lia. }
  exists tx. split; [exact Htx|]. split; [exact Hid|]. split; [|split; [|exact Hop]].
  - unfold get_transaction. rewrite truthy_some by assumption. cbn [negb].
    change (default "" (Some p)) with p. rewrite Hst. cbn [default from_option].
    unfold Datatypes.id. fold txs.
    erewrite (find_at_first _ txs (count - n)%nat tx Htx); [reflexivity| |].
    + apply String.eqb_eq. exact Hid.
    + intros j y Hj Hy. apply String.eqb_neq. intros E.
      apply (Hearlier j y Hj Hy). rewrite E. apply parse_generated_id.
  - unfold get_operation. rewrite truthy_some by assumption. cbn [negb].
    change (default "" (Some p)) with p. rewrite Hst. cbn [default from_option].
    unfold Datatypes.id. fold txs.
    erewrite (find_at_first _ txs (count - n)%nat tx Htx); [reflexivity| |].
    + rewrite (Hparse _ _ Htx). apply Z.eqb_eq. lia.
    + intros j y Hj Hy. specialize (Hearlier j y Hj Hy).
      destruct (digit_prefix_value None (replace_first "TXN_" (id y))) as [v|];
        [|reflexivity].
      apply Z.eqb_neq. congruence.
Qed.

(** GET /operations-simple without a truthy [type] gives the answer of
    GET /customers/transactions with the page list under the key
    [operations] instead of [transactions]; with one, [total] is the number of stored
    records of that type and every returned record is a stored record of
    that type. *)
Theorem operations_simple_by_type (st : mockData) (ph ty : option string)
    (lim off pg : option Z) :
  let stored := default [] (transactions st !! default "" ph) in
  (truthy_str ty = false ->
   get_operations_simple st ph ty lim off pg
   = map_response txPage_as_operations (get_customer_transactions st ph lim off pg)) /\
  (forall r, truthy_str ty = true ->
   get_operations_simple st ph ty lim off pg = RespOk r ->
   os_total r = Z.of_nat (length (List.filter
                  (fun t => String.eqb (type t) (default "" ty)) stored)) /\
   forall tx, In tx (os_operations r) ->
     type tx = default "" ty /\ In tx stored).
Proof.
  cbn zeta. split.
  - intros Hty. unfold get_operations_simple, get_customer_transactions.
    rewrite Hty. destruct (negb (truthy_str ph)); reflexivity.
  - intros r Hty. unfold get_operations_simple. rewrite Hty.
    destruct (negb (truthy_str ph)); [intros H; discriminate H|].
    intros H. injection H as <-. cbn [os_total os_operations].
    split; [reflexivity|]. intros tx Hin.
    apply list_elem_of_In, list_elem_of_lookup_1 in Hin as [i Hi].
    destruct (js_slice_lookup _ _ _ _ _ Hi) as [j Hj].
    apply list_elem_of_lookup_2, list_elem_of_In in Hj.
    apply filter_In in Hj as [Hj Heq]. apply String.eqb_eq in Heq. auto.
Qed.

Lemma floor_mul_range (r : Q) (n : Z) :
  unit_draw r -> (0 < n)%Z -> (0 <= floor_mul r n < n)%Z.
Proof.
  intros [H0 H1] Hn. unfold floor_mul. split.
  - change 0%Z with (Qfloor 0). apply Qfloor_resp_le.
    apply Qmult_le_0_compat; [exact H0|]. change 0%Q with (inject_Z 0).
    rewrite <- Zle_Qle. lia.
  - rewrite Zlt_Qlt. eapply Qle_lt_trans; [apply Qfloor_le|].
    assert (Hn' : (0 < inject_Z n)%Q) by (change 0%Q with (inject_Z 0); rewrite <- Zlt_Qlt; lia).
    rewrite <- (Qmult_1_l (inject_Z n)) at 2. apply Qmult_lt_r; assumption.
Qed.

Lemma nth_idx_in (l : list string) (k : Z) :
  (0 <= k < Z.of_nat (length l))%Z -> In (nth_idx l k) l.
Proof.
  intros Hk. unfold nth_idx.
  destruct (lookup_lt_is_Some_2 l (Z.to_nat k)) as [s Hs]; [lia|].
  rewrite Hs. apply list_elem_of_In, list_elem_of_lookup_2 with (Z.to_nat k), Hs.
Qed.

Lemma descriptions_length (t : string) : (0 < length (descriptions t))%nat.
Proof.
  unfold descriptions.
  repeat match goal with |- context [if ?b then _ else _] => destruct b end;
  cbn; lia.
Qed.

Lemma round_pos2_bounds (x : Q) :
  (50 <= x)%Q -> (x < 1050)%Q -> (50 <= round_pos2 x <= 1050)%Q.
Proof.
  intros H1 H2. unfold round_pos2.
  set (y := (x * 100 + (1 # 2))%Q).
  assert (Hlo : (5000 <= Qfloor y)%Z).
  { rewrite <- (Qfloor_Z 5000). apply Qfloor_resp_le. unfold y.
    assert (E : inject_Z 5000 == 50 * 100 + 0) by reflexivity. rewrite E.
    apply Qplus_le_compat; [|discriminate].
    apply Qmult_le_compat_r; [exact H1|discriminate]. }
  assert (Hhi : (Qfloor y < 105001)%Z).
  { rewrite Zlt_Qlt. eapply Qle_lt_trans; [apply Qfloor_le|]. unfold y.
    assert (E : inject_Z 105001 == 1050 * 100 + 1) by reflexivity. rewrite E.
    apply Qplus_lt_le_compat; [|discriminate].
    apply Qmult_lt_compat_r; [reflexivity|exact H2]. }
  generalize dependent (Qfloor y); intros z Hlo Hhi. unfold Qle; cbn [Qnum Qden]; split; lia.
Qed.

Lemma Qopp_opp_syntactic (x : Q) : (- - x)%Q = x.
Proof. destruct x as [n d]. unfold Qopp. cbn. rewrite Z.opp_involutive. reflexivity. Qed.

Lemma base_amount_range (r : Q) :
  unit_draw r -> (50 <= r * 1000 + 50)%Q /\ (r * 1000 + 50 < 1050)%Q.
Proof. intros [H0 H1]. split; lra. Qed.

Lemma toFixed2_credit_range (b : Q) :
  (50 <= b)%Q -> (b < 1050)%Q -> (50 <= toFixed2 b <= 1050)%Q.
Proof.
  intros H1 H2. unfold toFixed2.
  replace (Qle_bool 0 b) with true by (symmetry; apply Qle_bool_iff; lra).
  apply round_pos2_bounds; assumption.
Qed.

Lemma toFixed2_debit_range (b : Q) :
  (50 <= b)%Q -> (b < 1050)%Q -> (-1050 <= toFixed2 (- b) <= -50)%Q.
Proof.
  intros H1 H2. unfold toFixed2.
  replace (Qle_bool 0 (- b)) with false.
  2:{ symmetry. apply not_true_iff_false. rewrite Qle_bool_iff. lra. }
  rewrite Qopp_opp_syntactic. destruct (round_pos2_bounds b H1 H2). cbn [negb]. lra.
Qed.

Lemma gen_loop_in (isoDate : Z -> Z -> Z -> string) (rnd : nat -> draws)
    (count n : nat) (tx : transaction) :
  In tx (fst (gen_loop isoDate rnd count n)) ->
  exists i txs bal, (i < n)%nat /\
    fst (gen_step isoDate rnd count i txs bal) = tx :: txs.
Proof.
  induction n as [|n IH]; [intros []|]. cbn [gen_loop].
  destruct (gen_loop isoDate rnd count n) as [txs bal] eqn:E.
  unfold gen_step at 1. cbn [fst]. intros [<-|Hin].
  - exists n, txs, bal. split; [lia|]. reflexivity.
  - destruct (IH Hin) as (i & txs' & bal' & Hi & Hs).
    exists i, txs', bal'. split; [lia|exact Hs].
Qed.

(** Every generated record has a type of [transactionTypes], a
    description of that type's list, status COMPLETED or PENDING and
    currency MAD; credit types (CASHIN, TRANSFER_IN) have amounts in
    [50, 1050] and the others in [-1050, -50], so the amount is positive
    exactly for credit types. *)
Theorem generated_records (isoDate : Z -> Z -> Z -> string) (rnd : nat -> draws)
    (count : nat) (Hrnd : forall i, draws_ok (rnd i)) (tx : transaction)
    (Hin : In tx (generateFakeTransactions isoDate rnd count)) :
  In (type tx) transactionTypes /\
  In (description tx) (descriptions (type tx)) /\
  (status tx = "COMPLETED" \/ status tx = "PENDING") /\
  currency tx = "MAD" /\
  (if is_credit_type (type tx)
   then (50 <= amount tx <= 1050)%Q
   else (-1050 <= amount tx <= -50)%Q) /\
  ((0 < amount tx)%Q <-> is_credit_type (type tx) = true).
Proof.
  destruct (gen_loop_in _ _ _ _ _ Hin) as (i & txs & bal & _ & E).
  destruct (Hrnd i) as (Ht & Ha & _ & _ & Hd & Hs).
  unfold gen_step in E. cbn [fst] in E. injection E as <-.
  cbn [type description status currency amount].
  set (ty := nth_idx transactionTypes (floor_mul (r_type (rnd i)) 5)).
  assert (Hty : In ty transactionTypes).
  { apply nth_idx_in. pose proof (floor_mul_range _ 5 Ht ltac:(lia)). change (length transactionTypes) with 5%nat. lia. }
  split; [exact Hty|]. split.
  { apply nth_idx_in. apply floor_mul_range; [exact Hd|].
    pose proof (descriptions_length ty). lia. }
  split.
  { assert (Hst : In (nth_idx statuses (floor_mul (r_status (rnd i)) 5)) statuses).
    { apply nth_idx_in. pose proof (floor_mul_range _ 5 Hs ltac:(lia)).
      change (length statuses) with 5%nat. lia. }
    cbn in Hst. intuition. }
  split; [reflexivity|].
  destruct (base_amount_range _ Ha) as [Hb1 Hb2].
  change (String.eqb ty "CASHIN" || String.eqb ty "TRANSFER_IN") with (is_credit_type ty).
  destruct (is_credit_type ty).
  - pose proof (toFixed2_credit_range _ Hb1 Hb2). split; [exact H|]. split; [reflexivity|lra].
  - pose proof (toFixed2_debit_range _ Hb1 Hb2). split; [exact H|].
    split; [lra|intros H'; discriminate H'].
Qed.

Lemma register_then_lookup_witness :
  let now := "2024-05-01T10:00:00.000Z" in let now' := "2024-05-02T10:00:00.000Z" in
  let st := seed_store in
  let p := "+212600000009" in let f := "Amina" in let l := "Idrissi" in
  let c := "AB123456" in let w := "P" in
  (p <> "" /\ f <> "" /\ l <> "" /\ c <> "" /\ w <> "") /\
  let st' := snd (post_register now st (Some p) (Some f) (Some l) (Some c) (Some w)) in
  fst (post_register now st (Some p) (Some f) (Some l) (Some c) (Some w)) = RespOk true /\
  get_customer_info now' st' (Some p) =
    RespOk (mkCustomerInfo (remove_non_digits p) p f l c w 1 1
              ("827640000010000000" +:+ slice_last4 p) (balance_or_zero st p) now now') /\
  get_customer_status st' (Some p) =
    RespOk (Some (mkStatusInfo ("customer-" +:+ remove_non_digits p) p 1 w
                    (balance_or_zero st p) "MAD" (Some f) (Some l) (Some now))) /\
  get_customer_default st' (Some p) = RespOk true.
Proof.
  cbv zeta. split; [repeat split; discriminate|].
  apply (register_then_lookup "2024-05-01T10:00:00.000Z" "2024-05-02T10:00:00.000Z"
           seed_store "+212600000009" "Amina" "Idrissi" "AB123456" "P"); discriminate.
Defined.


Lemma login_after_activation_witness :
  let now := "2024-05-01T10:00:00.000Z" in let st := seed_store in
  let p := "+212600000009" in let f := "Amina" in let l := "Idrissi" in
  let c := "AB123456" in let w := "P" in let w' := "P" in
  let pin := "4321" in let x := "1234" in
  (p <> "" /\ f <> "" /\ l <> "" /\ c <> "" /\ w <> "" /\ w' <> "" /\ pin <> "" /\ x <> "") /\
  let st1 := snd (post_register now st (Some p) (Some f) (Some l) (Some c) (Some w)) in
  let st2 := snd (post_confirm st1 (Some p) (Some "123456") (Some w')) in
  let st3 := snd (post_pin st2 (Some p) (Some pin)) in
  pins st3 !! p = Some pin /\
  post_login st3 (Some p) (Some x) =
    RespOk (mkLoginResponse (String.eqb x "1234") (if String.eqb x "1234" then 3 else 2)).
Proof.
  cbv zeta. split; [repeat split; discriminate|].
  apply (login_after_activation "2024-05-01T10:00:00.000Z" seed_store "+212600000009"
           "Amina" "Idrissi" "AB123456" "P" "P" "4321" "1234"); discriminate.
Defined.

Lemma put_pin_unchecked_witness :
  let st := seed_store in
  let p := "+212600000004" in let oldPin := "0000" in let newPin := "9999" in
  (p <> "" /\ oldPin <> "" /\ newPin <> "") /\
  let st' := snd (put_pin st (Some p) (Some oldPin) (Some newPin)) in
  fst (put_pin st (Some p) (Some oldPin) (Some newPin)) = RespOk true /\
  pins st' !! p = Some newPin /\
  (forall q, q <> p -> pins st' !! q = pins st !! q) /\
  customers st' = customers st /\ registrations st' = registrations st /\
  balances st' = balances st /\ transactions st' = transactions st /\
  (forall ph x, post_login st' ph x = post_login st ph x).
Proof.
  cbv zeta. split; [repeat split; discriminate|].
  apply (put_pin_unchecked seed_store "+212600000004" "0000" "9999"); discriminate.
Defined.


Lemma get_transaction_lookup_witness :
  let st := sample_store in let p := "+212600000004" in let t := "7" in
  p <> "" /\
  let txs := default [] (transactions st !! p) in
  get_transaction st (Some p) (padStart 3 t) = get_transaction st (Some p) t /\
  (forall tx, get_transaction st (Some p) t = RespOk tx ->
     id tx = "TXN_" +:+ padStart 3 t /\
     exists k, txs !! k = Some tx /\
       forall j tx', (j < k)%nat -> txs !! j = Some tx' -> id tx' <> id tx) /\
  (get_transaction st (Some p) t = RespErr 404 "Transaction not found" <->
   forall tx, In tx txs -> id tx <> "TXN_" +:+ padStart 3 t).
Proof.
  cbv zeta. split; [discriminate|].
  apply (get_transaction_lookup sample_store "+212600000004" "7"). discriminate.
Defined.

Lemma generated_lookup_by_number_witness :
  let isoDate := fun (_ _ _ : Z) => "" in
  let st := sample_store in let p := "+212600000004" in let n := 7%nat in
  (p <> "" /\
   transactions st !! p = Some (generateFakeTransactions isoDate rnd_c1 25) /\
   (1 <= n <= 25)%nat) /\
  exists tx,
    generateFakeTransactions isoDate rnd_c1 25 !! (25 - n)%nat = Some tx /\
    id tx = "TXN_" +:+ padStart 3 (pretty n) /\
    get_transaction st (Some p) (pretty n) = RespOk tx /\
    get_operation st (Some p) (Some (Z.of_nat n))
      = RespOk (transactionToOperation tx p (Z.of_nat n)) /\
    transactionId (transactionToOperation tx p (Z.of_nat n)) = Some (Z.of_nat n).
Proof.
  cbv zeta. split.
  - split; [discriminate|]. split; [reflexivity|lia].
  - apply (generated_lookup_by_number (fun _ _ _ => "") rnd_c1 25 sample_store
             "+212600000004" 7); [discriminate | reflexivity | lia].
Defined.

Lemma generated_records_witness :
  let isoDate := fun (_ _ _ : Z) => "" in
  (forall i, draws_ok (rnd_half i)) /\
  exists tx, In tx (generateFakeTransactions isoDate rnd_half 3) /\
  In (type tx) transactionTypes /\
  In (description tx) (descriptions (type tx)) /\
  (status tx = "COMPLETED" \/ status tx = "PENDING") /\
  currency tx = "MAD" /\
  (if is_credit_type (type tx)
   then (50 <= amount tx <= 1050)%Q
   else (-1050 <= amount tx <= -50)%Q) /\
  ((0 < amount tx)%Q <-> is_credit_type (type tx) = true).
Proof.
  cbv zeta.
  assert (Hd : forall i, draws_ok (rnd_half i)).
  { intros i. unfold draws_ok, unit_draw, rnd_half. cbn [r_type r_amount r_hour r_minute r_desc r_status].
    repeat split; vm_compute; (reflexivity || discriminate). }
  split; [exact Hd|].
  destruct (generateFakeTransactions (fun _ _ _ => "") rnd_half 3) as [|tx txs] eqn:E.
  - vm_compute in E. discriminate E.
  - exists tx. assert (Hin : In tx (tx :: txs)) by (left; reflexivity).
    split; [exact Hin|]. rewrite <- E in Hin.
    exact (generated_records (fun _ _ _ => "") rnd_half 3 Hd tx Hin).
Defined.
